(** * The Python bootstrap shim of the Android terminal emulator

    A shallow embedding of [terminal-emulator/src/main/jni/python.c].

    The file has one function, [main], which runs five phases in a row:
    it fixes up the process environment, opens the runtime library and
    binds nine entry points, builds the module search path and submits a
    few source statements, decodes the command line, and finally calls
    [Py_Main] and returns its result.

    The program is modelled in a state-and-exit monad over the part of
    the process state the code touches (environment, pending [dlerror]
    message, [LC_ALL], the standard error stream) together with the list
    of calls made into the runtime.  Everything outside the file -- the
    dynamic loader, the locale subsystem, the interpreter -- is a
    [Platform] of oracles. *)

From Stdlib Require Import ZArith String Ascii List DecimalString.
From Stdlib Require DecimalZ DecimalPos.
From stdpp Require Import gmap strings list fin_maps.

Local Open Scope Z_scope.
Local Open Scope string_scope.
Local Open Scope list_scope.

(** ** C strings and the [printf] family *)

(** The line feed, written [\n] in the source. *)
Definition nl : string := String "010"%char EmptyString.

(** What [%i] prints for an [int]. *)
Definition decimal (i : Z) : string := NilZero.string_of_int (Z.to_int i).

(** The first [n] characters of [s]: what fits in a buffer of [n + 1]
    bytes once the terminating zero is accounted for. *)
Fixpoint truncate (n : nat) (s : string) : string :=
  match n, s with
  | S k, String c r => String c (truncate k r)
  | _, _ => EmptyString
  end.

(** Variadic arguments.  A [char *] may be the null pointer. *)
Inductive printf_arg :=
  | AStr (s : option string)
  | AInt (i : Z).

(** The conversions the source uses: [%s] and [%i].  [None] stands for
    the cases the C standard leaves undefined: a null pointer given to
    [%s], a directive without a matching argument, any other directive. *)
Fixpoint format (fmt : string) (args : list printf_arg) : option string :=
  match fmt with
  | EmptyString => Some EmptyString
  | String c rest =>
      if Ascii.eqb c "%" then
        match rest with
        | EmptyString => None
        | String d rest' =>
            if Ascii.eqb d "s" then
              match args with
              | AStr (Some a) :: args' =>
                  option_map (String.append a) (format rest' args')
              | _ => None
              end
            else if Ascii.eqb d "i" then
              match args with
              | AInt i :: args' =>
                  option_map (String.append (decimal i)) (format rest' args')
              | _ => None
              end
            else None
        end
      else option_map (String c) (format rest args)
  end.

(** ** Process state and the outside world *)

(** [wchar_t] strings, as the code units they hold. *)
Definition wstring := list N.

(** One cell of a [wchar_t **] array. *)
Inductive cell :=
  | Uninit               (* fresh from the allocator, never written *)
  | Null                 (* the null pointer *)
  | Ptr (w : wstring).   (* a decoded string *)

(** Memory handed to [PyMem_RawFree]. *)
Inductive block :=
  | BString (c : cell)   (* what an array cell points to *)
  | BArgvCopy            (* the array handed to Py_Main *)
  | BArgvCopy2.          (* its shadow *)

(** Calls through the entry points bound from the runtime library, with
    their arguments.  Results are not part of the record. *)
Inductive Event :=
  | EvSetProgramName (name : string)
  | EvDecodeLocale (arg : string)
  | EvSetPath (path : option wstring)
  | EvInitialize
  | EvEvalInitThreads
  | EvRunSimpleString (src : string)
  | EvRawMalloc (cells : nat)
  | EvMain (argc : nat) (argv : list cell)
  | EvRawFree (b : block).

(** Answer of [dlopen] and [dlsym]; a failure comes with the text
    [dlerror] will report. *)
Inductive dl_result :=
  | DlOk
  | DlFail (msg : string).

Record Platform := {
  (* dlopen(path, RTLD_LAZY); the path may be the null pointer *)
  dl_open : option string -> dl_result;
  (* dlsym(handle, name) on the handle [dl_open] gave *)
  dl_sym : string -> dl_result;
  (* the locale setlocale(LC_ALL, EmptyString) selects; None when it refuses *)
  native_locale : option string;
  (* Py_DecodeLocale under the given LC_ALL; None is the null result *)
  decode_locale : string -> string -> option wstring;
  (* PyRun_SimpleString, given the calls made so far *)
  run_simple_string : list Event -> string -> Z;
  (* Py_Main, given the calls made so far *)
  py_main : list Event -> nat -> list cell -> Z
}.

Record State := mkState {
  st_env : gmap string string;   (* environ *)
  st_dlerror : option string;    (* message the next dlerror() returns *)
  st_lib_open : bool;            (* the library handle is live *)
  st_locale : string;            (* LC_ALL *)
  st_stderr : string;            (* bytes written to stderr so far *)
  st_trace : list Event          (* runtime calls, oldest first *)
}.

Definition with_env (f : gmap string string -> gmap string string) (s : State) : State :=
  mkState (f (st_env s)) (st_dlerror s) (st_lib_open s) (st_locale s) (st_stderr s) (st_trace s).

Definition with_dlerror (e : option string) (s : State) : State :=
  mkState (st_env s) e (st_lib_open s) (st_locale s) (st_stderr s) (st_trace s).

Definition with_lib_open (b : bool) (s : State) : State :=
  mkState (st_env s) (st_dlerror s) b (st_locale s) (st_stderr s) (st_trace s).

Definition with_locale (l : string) (s : State) : State :=
  mkState (st_env s) (st_dlerror s) (st_lib_open s) l (st_stderr s) (st_trace s).

Definition write_stderr (t : string) (s : State) : State :=
  mkState (st_env s) (st_dlerror s) (st_lib_open s) (st_locale s) (st_stderr s +:+ t) (st_trace s).

Definition log_call (e : Event) (s : State) : State :=
  mkState (st_env s) (st_dlerror s) (st_lib_open s) (st_locale s) (st_stderr s) (st_trace s ++ [e]).

(** How a computation stops: it hands on a value, the process exits
    with a status, or it reaches an operation C leaves undefined. *)
Inductive Outcome (A : Type) :=
  | Done (a : A) (s : State)
  | Exit (status : Z) (s : State)
  | Fault (s : State).

Arguments Done {A} a s.
Arguments Exit {A} status s.
Arguments Fault {A} s.

Definition final_state {A} (o : Outcome A) : State :=
  match o with
  | Done _ s | Exit _ s | Fault s => s
  end.

(** The status the parent sees: the argument of [exit], or the value
    [main] returned. *)
Definition exit_status (o : Outcome Z) : option Z :=
  match o with
  | Done r _ => Some r
  | Exit c _ => Some c
  | Fault _ => None
  end.

Definition M (A : Type) : Type := State -> Outcome A.

Definition ret {A} (a : A) : M A := fun s => Done a s.

Definition bind {A B} (m : M A) (k : A -> M B) : M B :=
  fun s =>
    match m s with
    | Done a s' => k a s'
    | Exit c s' => Exit c s'
    | Fault s' => Fault s'
    end.

Declare Scope prog_scope.
Delimit Scope prog_scope with prog.
Notation "x <- m ;; k" := (bind m (fun x => k))
  (at level 100, m at next level, right associativity) : prog_scope.
Notation "m ;; k" := (bind m (fun _ => k))
  (at level 100, right associativity) : prog_scope.
Local Open Scope prog_scope.

Definition exit {A} (status : Z) : M A := fun s => Exit status s.
Definition undefined {A} : M A := fun s => Fault s.

(** ** The C library *)

Definition getenv (name : string) : M (option string) :=
  fun s => Done (st_env s !! name) s.

(** [setenv(name, value, overwrite)].  A null [value] is outside what
    POSIX defines (bionic dereferences it). *)
Definition setenv (name : string) (value : option string) (overwrite : bool) : M unit :=
  fun s =>
    match value with
    | None => Fault s
    | Some v =>
        if overwrite || bool_decide (st_env s !! name = None)
        then Done tt (with_env (insert name v) s)
        else Done tt s
    end.

(** [fputs(str, stderr)]. *)
Definition fputs_stderr (str : option string) : M unit :=
  fun s =>
    match str with
    | None => Fault s
    | Some t => Done tt (write_stderr t s)
    end.

(** [fprintf(stderr, fmt, ...)]. *)
Definition fprintf_stderr (fmt : string) (args : list printf_arg) : M unit :=
  fun s =>
    match format fmt args with
    | None => Fault s
    | Some t => Done tt (write_stderr t s)
    end.

(** [snprintf(buf, size, fmt, ...)], giving the contents of [buf]
    afterwards.  The source never looks at the returned length. *)
Definition snprintf (size : nat) (fmt : string) (args : list printf_arg) : M string :=
  fun s =>
    match format fmt args with
    | None => Fault s
    | Some t => Done (truncate (size - 1) t) s
    end.

(** [strdup]; the copy is assumed to be allocated. *)
Definition strdup (str : option string) : M string :=
  fun s =>
    match str with
    | None => Fault s
    | Some t => Done t s
    end.

(** [free] of a [strdup] copy: the heap itself is not modelled. *)
Definition free (_ : string) : M unit := ret tt.

Section Shim.

Variable P : Platform.

(** [setlocale(LC_ALL, arg)]: a null [arg] only queries, the empty
    name asks for the native locale, any other name is installed. *)
Definition setlocale (arg : option string) : M (option string) :=
  fun s =>
    match arg with
    | None => Done (Some (st_locale s)) s
    | Some name =>
        if bool_decide (name = EmptyString) then
          match native_locale P with
          | Some l => Done (Some l) (with_locale l s)
          | None => Done None s
          end
        else Done (Some name) (with_locale name s)
    end.

(** *** The dynamic loader *)

Definition handle := unit.

Definition dlopen (path : option string) : M (option handle) :=
  fun s =>
    match dl_open P path with
    | DlOk => Done (Some tt) (with_lib_open true s)
    | DlFail msg => Done None (with_dlerror (Some msg) s)
    end.

Definition dlsym (_ : handle) (name : string) : M unit :=
  fun s =>
    match dl_sym P name with
    | DlOk => Done tt s
    | DlFail msg => Done tt (with_dlerror (Some msg) s)
    end.

(** [dlerror()] hands out the pending message and clears it. *)
Definition dlerror : M (option string) :=
  fun s => Done (st_dlerror s) (with_dlerror None s).

Definition dlclose (_ : handle) : M unit :=
  fun s => Done tt (with_lib_open false s).

(** *** The bound entry points *)

Definition pySetProgramName (name : string) : M unit :=
  fun s => Done tt (log_call (EvSetProgramName name) s).

Definition pyDecodeLocale (arg : string) : M (option wstring) :=
  fun s => Done (decode_locale P (st_locale s) arg) (log_call (EvDecodeLocale arg) s).

Definition pySetPath (path : option wstring) : M unit :=
  fun s => Done tt (log_call (EvSetPath path) s).

Definition pyInit : M unit :=
  fun s => Done tt (log_call EvInitialize s).

Definition pyEvalInit : M unit :=
  fun s => Done tt (log_call EvEvalInitThreads s).

Definition pySimpleString (src : string) : M Z :=
  fun s => Done (run_simple_string P (st_trace s) src) (log_call (EvRunSimpleString src) s).

(** [PyMem_RawMalloc(sizeof(wchar_t * ) * n)]: [n] cells, assumed to be
    granted, holding nothing yet. *)
Definition pyMemRawMalloc (n : nat) : M (list cell) :=
  fun s => Done (replicate n Uninit) (log_call (EvRawMalloc n) s).

Definition PyMem_RawFree (b : block) : M unit :=
  fun s => Done tt (log_call (EvRawFree b) s).

Definition pyMain (argc : nat) (argv : list cell) : M Z :=
  fun s => Done (py_main P (st_trace s) argc argv) (log_call (EvMain argc argv) s).

(** ** [main], phase by phase *)

(** Lines 31-47.  Of the variables read here only [exePath] is used
    later. *)
Definition environment_resolver : M (option string) :=
  setenv "P4A_BOOTSTRAP" (Some "SDL2") true ;;
  env_argument <- getenv "ANDROID_ARGUMENT" ;;
  exePath <- getenv "EXEPATH" ;;
  waitForExit <- getenv "WAIT_FOR_EXIT" ;;
  setenv "ANDROID_APP_PATH" env_argument true ;;
  env_entrypoint <- getenv "ANDROID_ENTRYPOINT" ;;
  env_logname <- getenv "PYTHON_NAME" ;;
  unpack <- getenv "ANDROID_UNPACK" ;;
  (if unpack is None then setenv "ANDROID_UNPACK" env_argument true else ret tt) ;;
  (if env_logname is None then setenv "PYTHON_NAME" (Some "python") true else ret tt) ;;
  ret exePath.

(** One of the nine blocks of lines 67-119. *)
Definition bind_symbol (h : handle) (name : string) : M unit :=
  dlsym h name ;;
  error <- dlerror ;;
  match error with
  | Some e => fputs_stderr (Some e) ;; exit 1
  | None => ret tt
  end.

(** Lines 61-119. *)
Definition loader (exePath : option string) : M handle :=
  hd <- dlopen exePath ;;
  match hd with
  | None => e <- dlerror ;; fputs_stderr e ;; exit 1
  | Some h =>
      bind_symbol h "Py_SetProgramName" ;;
      bind_symbol h "Py_DecodeLocale" ;;
      bind_symbol h "Py_SetPath" ;;
      bind_symbol h "Py_Initialize" ;;
      bind_symbol h "PyEval_InitThreads" ;;
      bind_symbol h "PyRun_SimpleString" ;;
      bind_symbol h "PyMem_RawMalloc" ;;
      bind_symbol h "PyMem_RawFree" ;;
      bind_symbol h "Py_Main" ;;
      ret h
  end.

(** Lines 121-167. *)
Definition path_and_script : M unit :=
  pySetProgramName "android_python" ;;
  unpack <- getenv "ANDROID_UNPACK" ;;
  python_bundle_dir <- snprintf 256 "%s/_python_bundle" [AStr unpack] ;;
  paths <- snprintf 256 "%s/stdlib.zip:%s/modules"
             [AStr (Some python_bundle_dir); AStr (Some python_bundle_dir)] ;;
  wchar_paths <- pyDecodeLocale paths ;;
  pySetPath wchar_paths ;;
  pyInit ;;
  pyEvalInit ;;
  pySimpleString ("import sys, posix" +:+ nl) ;;
  add_site_packages_dir <- snprintf 256 "sys.path.append('%s/site-packages')"
                             [AStr (Some python_bundle_dir)] ;;
  unpack <- getenv "ANDROID_UNPACK" ;;
  add_lib_path <- snprintf 256 "sys.path.append('%s/lib/python3.8/site-packages')"
                    [AStr unpack] ;;
  unpack <- getenv "ANDROID_UNPACK" ;;
  add_prefix <- snprintf 256 "sys.prefix = '%s'" [AStr unpack] ;;
  pySimpleString ("import sys" +:+ nl +:+
                  "sys.argv = ['notaninterpreterreally']" +:+ nl +:+
                  "from os.path import realpath, join, dirname") ;;
  pySimpleString add_prefix ;;
  pySimpleString add_site_packages_dir ;;
  pySimpleString add_lib_path ;;
  pySimpleString "sys.path = ['.'] + sys.path" ;;
  ret tt.

(** The loop of lines 177-186, entered at index [i] with [n]
    iterations to go.  The test [argv_copy[i] == 0] reads the cell the
    decoder's result was stored in a line earlier, so it is a test on
    that result. *)
Fixpoint decode_loop (n i : nat) (argv : list string) (oldloc : string)
    (argv_copy argv_copy2 : list cell) : M (list cell * list cell) :=
  match n with
  | O => ret (argv_copy, argv_copy2)
  | S n' =>
      match argv !! i with
      | None => undefined
      | Some arg =>
          w <- pyDecodeLocale arg ;;
          match w with
          | None =>
              free oldloc ;;
              fprintf_stderr
                ("Fatal Python error: unable to decode the command line argument #%i" +:+ nl)
                [AInt (Z.of_nat i + 1)] ;;
              exit 1
          | Some d =>
              let argv_copy := <[i := Ptr d]> argv_copy in
              let argv_copy2 := <[i := Ptr d]> argv_copy2 in
              decode_loop n' (S i) argv oldloc argv_copy argv_copy2
          end
      end
  end.

(** Lines 171-189. *)
Definition marshaler (argc : nat) (argv : list string) : M (list cell * list cell) :=
  argv_copy <- pyMemRawMalloc (argc + 1) ;;
  argv_copy2 <- pyMemRawMalloc (argc + 1) ;;
  cur <- setlocale None ;;
  oldloc <- strdup cur ;;
  setlocale (Some EmptyString) ;;
  arrays <- decode_loop argc 0 argv oldloc argv_copy argv_copy2 ;;
  let argv_copy := <[argc := Null]> (fst arrays) in
  let argv_copy2 := <[argc := Null]> (snd arrays) in
  setlocale (Some oldloc) ;;
  free oldloc ;;
  ret (argv_copy, argv_copy2).

(** The loop of lines 194-196. *)
Fixpoint free_loop (n i : nat) (argv_copy2 : list cell) : M unit :=
  match n with
  | O => ret tt
  | S n' =>
      match argv_copy2 !! i with
      | None => undefined
      | Some c => PyMem_RawFree (BString c) ;; free_loop n' (S i) argv_copy2
      end
  end.

(** Lines 191-204. *)
Definition invoker (h : option handle) (argc : nat)
    (argv_copy argv_copy2 : list cell) : M Z :=
  r <- pyMain argc argv_copy ;;
  free_loop argc 0 argv_copy2 ;;
  PyMem_RawFree BArgvCopy ;;
  PyMem_RawFree BArgvCopy2 ;;
  (if h is Some h' then dlclose h' else ret tt) ;;
  ret r.

(** [main(argc, argv)], with [argc] the length of [argv]. *)
Definition main (argv : list string) : M Z :=
  let argc := length argv in
  exePath <- environment_resolver ;;
  h <- loader exePath ;;
  path_and_script ;;
  arrays <- marshaler argc argv ;;
  invoker (Some h) argc (fst arrays) (snd arrays).

End Shim.

(** ** Derived notions used in the statements *)

(** A process right after [exec]: no loader error pending, nothing
    written, no call made. *)
Definition initial_state (env : gmap string string) (locale : string) : State :=
  mkState env None false locale EmptyString [].

Definition log_calls (l : list Event) (s : State) : State :=
  mkState (st_env s) (st_dlerror s) (st_lib_open s) (st_locale s) (st_stderr s) (st_trace s ++ l).

(** The nine symbols, in the order [main] binds them. *)
Definition entry_points : list string :=
  ["Py_SetProgramName"; "Py_DecodeLocale"; "Py_SetPath"; "Py_Initialize";
   "PyEval_InitThreads"; "PyRun_SimpleString"; "PyMem_RawMalloc";
   "PyMem_RawFree"; "Py_Main"].

Fixpoint bind_symbols (P : Platform) (h : handle) (names : list string) : M unit :=
  match names with
  | [] => ret tt
  | name :: names' => bind_symbol P h name ;; bind_symbols P h names'
  end.

Definition library_loads (P : Platform) (exePath : option string) : Prop :=
  dl_open P exePath = DlOk /\ Forall (fun name => dl_sym P name = DlOk) entry_points.

(** The message of the first symbol of [names] that does not resolve. *)
Fixpoint first_unresolved (P : Platform) (names : list string) : option string :=
  match names with
  | [] => None
  | name :: names' =>
      match dl_sym P name with
      | DlFail msg => Some msg
      | DlOk => first_unresolved P names'
      end
  end.

(** The environment the resolver leaves when [ANDROID_ARGUMENT] is [a]. *)
Definition resolved_env (a : string) (env : gmap string string) : gmap string string :=
  let e1 := <["ANDROID_APP_PATH" := a]> (<["P4A_BOOTSTRAP" := "SDL2"]> env) in
  let e2 := if env !! "ANDROID_UNPACK" is None then <["ANDROID_UNPACK" := a]> e1 else e1 in
  if env !! "PYTHON_NAME" is None then <["PYTHON_NAME" := "python"]> e2 else e2.

(** The value of [ANDROID_UNPACK] the later phases read. *)
Definition unpack_root (a : string) (env : gmap string string) : string :=
  default a (env !! "ANDROID_UNPACK").

(** The results of the five [snprintf] calls before they are cut to the
    buffer, as functions of what [%s] receives. *)
Definition bundle_dir_fmt (u : string) : string := u +:+ "/_python_bundle".
Definition paths_fmt (b : string) : string := b +:+ "/stdlib.zip:" +:+ b +:+ "/modules".
Definition add_site_packages_dir_fmt (b : string) : string :=
  "sys.path.append('" +:+ b +:+ "/site-packages')".
Definition add_lib_path_fmt (u : string) : string :=
  "sys.path.append('" +:+ u +:+ "/lib/python3.8/site-packages')".
Definition add_prefix_fmt (u : string) : string := "sys.prefix = '" +:+ u +:+ "'".

(** The contents of the five buffers for unpack root [u]. *)
Definition python_bundle_dir (u : string) : string := truncate 255 (bundle_dir_fmt u).
Definition paths (u : string) : string := truncate 255 (paths_fmt (python_bundle_dir u)).
Definition add_site_packages_dir (u : string) : string :=
  truncate 255 (add_site_packages_dir_fmt (python_bundle_dir u)).
Definition add_lib_path (u : string) : string := truncate 255 (add_lib_path_fmt u).
Definition add_prefix (u : string) : string := truncate 255 (add_prefix_fmt u).

Definition import_statement : string := "import sys, posix" +:+ nl.
Definition preamble_statement : string :=
  "import sys" +:+ nl +:+
  "sys.argv = ['notaninterpreterreally']" +:+ nl +:+
  "from os.path import realpath, join, dirname".
Definition dot_statement : string := "sys.path = ['.'] + sys.path".

(** The runtime calls of lines 121-167 for unpack root [u] under
    locale [loc]. *)
Definition script_calls (P : Platform) (loc u : string) : list Event :=
  [EvSetProgramName "android_python";
   EvDecodeLocale (paths u);
   EvSetPath (decode_locale P loc (paths u));
   EvInitialize;
   EvEvalInitThreads;
   EvRunSimpleString import_statement;
   EvRunSimpleString preamble_statement;
   EvRunSimpleString (add_prefix u);
   EvRunSimpleString (add_site_packages_dir u);
   EvRunSimpleString (add_lib_path u);
   EvRunSimpleString dot_statement].

(** [LC_ALL] after [setlocale(LC_ALL, arg)] when it was [cur] before. *)
Definition new_locale (P : Platform) (arg : option string) (cur : string) : string :=
  match arg with
  | None => cur
  | Some name =>
      if bool_decide (name = EmptyString) then default cur (native_locale P) else name
  end.

(** The locale in force while the command line is decoded. *)
Definition decoding_locale (P : Platform) (loc : string) : string :=
  new_locale P (Some EmptyString) loc.

(** The locale the marshaler leaves on its normal path. *)
Definition restored_locale (P : Platform) (loc : string) : string :=
  new_locale P (Some loc) (decoding_locale P loc).

(** [argv] decodes to [ws], argument by argument. *)
Definition decodes (P : Platform) (loc : string) (argv : list string) (ws : list wstring) : Prop :=
  Forall2 (fun a w => decode_locale P loc a = Some w) argv ws.

(** What both arrays hold once [ws] has been stored and terminated. *)
Definition marshaled (ws : list wstring) : list cell := (Ptr <$> ws) ++ [Null].

Definition marshal_calls (argv : list string) : list Event :=
  [EvRawMalloc (length argv + 1); EvRawMalloc (length argv + 1)] ++ (EvDecodeLocale <$> argv).

Definition teardown_calls (ws : list wstring) : list Event :=
  ((fun w => EvRawFree (BString (Ptr w))) <$> ws) ++ [EvRawFree BArgvCopy; EvRawFree BArgvCopy2].

Definition decode_diagnostic (ordinal : Z) : string :=
  "Fatal Python error: unable to decode the command line argument #" +:+ decimal ordinal +:+ nl.

Definition is_main_call (e : Event) : bool :=
  match e with
  | EvMain _ _ => true
  | _ => false
  end.

(** Calls that belong to the path-and-script phase. *)
Definition is_script_call (e : Event) : bool :=
  match e with
  | EvSetProgramName _ | EvSetPath _ | EvInitialize | EvEvalInitThreads
  | EvRunSimpleString _ => true
  | _ => false
  end.

(** The platform [P] with another [PyRun_SimpleString]. *)
Definition with_run_simple_string (r : list Event -> string -> Z) (P : Platform) : Platform :=
  {| dl_open := dl_open P;
     dl_sym := dl_sym P;
     native_locale := native_locale P;
     decode_locale := decode_locale P;
     run_simple_string := r;
     py_main := py_main P |}.

(** The bootstrap gets as far as [Py_Main]: the library opens, the nine
    symbols resolve, every argument decodes. *)
Definition bootstrap_completes (P : Platform) (env : gmap string string) (loc : string)
    (argv : list string) : Prop :=
  library_loads P (env !! "EXEPATH") /\
  exists ws, decodes P (decoding_locale P loc) argv ws.

(** The loader's messages are never empty. *)
Definition diagnostics_nonempty (P : Platform) : Prop :=
  (forall path msg, dl_open P path = DlFail msg -> msg <> EmptyString) /\
  (forall name msg, dl_sym P name = DlFail msg -> msg <> EmptyString).

(** Index of the first argument the decoder rejects under [loc]. *)
Fixpoint first_undecodable (P : Platform) (loc : string) (argv : list string) : option nat :=
  match argv with
  | [] => None
  | arg :: argv' =>
      match decode_locale P loc arg with
      | None => Some O
      | Some _ => option_map S (first_undecodable P loc argv')
      end
  end.

(** The sources given to [PyRun_SimpleString], in order. *)
Fixpoint statements (trace : list Event) : list string :=
  match trace with
  | [] => []
  | EvRunSimpleString src :: trace' => src :: statements trace'
  | _ :: trace' => statements trace'
  end.

(** The arguments given to [Py_SetPath], in order. *)
Fixpoint set_path_args (trace : list Event) : list (option wstring) :=
  match trace with
  | [] => []
  | EvSetPath p :: trace' => p :: set_path_args trace'
  | _ :: trace' => set_path_args trace'
  end.

(** The blocks handed to [PyMem_RawFree], in order. *)
Fixpoint freed_blocks (trace : list Event) : list block :=
  match trace with
  | [] => []
  | EvRawFree b :: trace' => b :: freed_blocks trace'
  | _ :: trace' => freed_blocks trace'
  end.

(** The sizes, in cells, asked of [PyMem_RawMalloc], in order. *)
Fixpoint malloc_sizes (trace : list Event) : list nat :=
  match trace with
  | [] => []
  | EvRawMalloc n :: trace' => n :: malloc_sizes trace'
  | _ :: trace' => malloc_sizes trace'
  end.

(** The strings given to [Py_DecodeLocale], in order. *)
Fixpoint decode_args (trace : list Event) : list string :=
  match trace with
  | [] => []
  | EvDecodeLocale arg :: trace' => arg :: decode_args trace'
  | _ :: trace' => decode_args trace'
  end.

(** The variables [main] writes. *)
Definition exported_names : list string :=
  ["P4A_BOOTSTRAP"; "ANDROID_APP_PATH"; "ANDROID_UNPACK"; "PYTHON_NAME"].

(** Reading back what [%i] printed. *)
Definition parse_decimal (s : string) : option Z :=
  option_map Z.of_int (NilZero.int_of_string s).

(** ** Sample platforms and inputs *)

Module Sample.

(** A decoder for 7-bit input; anything else is rejected. *)
Definition ascii_decode (arg : string) : option wstring :=
  let codes := N_of_ascii <$> list_ascii_of_string arg in
  if forallb (fun c => N.ltb c 128) codes then Some codes else None.

Definition runtime_path : string := "/data/app-root/lib/libruntime.so".

(** A device on which the runtime library is installed and complete.
    Every injected statement fails on it. *)
Definition device : Platform :=
  {| dl_open := fun path =>
       if bool_decide (path = Some runtime_path) then DlOk
       else DlFail "dlopen failed: library not found";
     dl_sym := fun name =>
       if bool_decide (name ∈ entry_points) then DlOk
       else DlFail "undefined symbol";
     native_locale := Some "C.UTF-8";
     decode_locale := fun _ arg => ascii_decode arg;
     run_simple_string := fun _ _ => -1;
     py_main := fun _ argc _ => Z.of_nat argc + 40 |}.

(** The same device with a runtime library that lacks [Py_Main]. *)
Definition stripped_device : Platform :=
  {| dl_open := dl_open device;
     dl_sym := fun name =>
       if bool_decide (name = "Py_Main") then DlFail "undefined symbol: Py_Main"
       else dl_sym device name;
     native_locale := native_locale device;
     decode_locale := decode_locale device;
     run_simple_string := run_simple_string device;
     py_main := py_main device |}.

Definition env : gmap string string :=
  {[ "ANDROID_ARGUMENT" := "/data/app-root"; "EXEPATH" := runtime_path ]}.

(** An environment whose library path names no file. *)
Definition env_no_library : gmap string string :=
  {[ "ANDROID_ARGUMENT" := "/data/app-root"; "EXEPATH" := "/nonexistent/libruntime.so" ]}.

(** An environment in which the unpack root is already set. *)
Definition env_unpacked : gmap string string :=
  {[ "ANDROID_ARGUMENT" := "/data/app-root"; "ANDROID_UNPACK" := "/data/unpacked";
     "EXEPATH" := runtime_path ]}.

(** An application root of 224 characters. *)
Definition deep_root : string :=
  "/storage/emulated/0/Android/data/org.example.terminal.emulator.python/files/workspaces/customer-projects/embedded-interpreter/releases/candidate-builds/2021-08-18/unpacked-application-bundle/private-runtime-resources/current".

(** What the search path and the library statement would be for it. *)
Definition deep_search_path : string :=
  (deep_root +:+ "/_python_bundle") +:+ "/stdlib.zip:"
  +:+ (deep_root +:+ "/_python_bundle") +:+ "/modules".

Definition deep_lib_statement : string :=
  "sys.path.append('" +:+ deep_root +:+ "/lib/python3.8/site-packages')".

Definition deep_env : gmap string string :=
  {[ "ANDROID_ARGUMENT" := deep_root; "EXEPATH" := runtime_path ]}.

Definition argv : list string := ["python"; "-c"; "pass"].

(** Its decoding, code unit by code unit. *)
Definition wargv : list wstring :=
  [[112; 121; 116; 104; 111; 110]; [45; 99]; [112; 97; 115; 115]]%N.

(** A command line whose second argument holds the byte 233. *)
Definition argv_latin1 : list string :=
  ["python"; "caf" +:+ String "233"%char EmptyString; "-v"].

Definition state : State := initial_state env "C".

(** The device with a locale subsystem that refuses the native locale. *)
Definition device_no_native : Platform :=
  {| dl_open := dl_open device;
     dl_sym := dl_sym device;
     native_locale := None;
     decode_locale := decode_locale device;
     run_simple_string := run_simple_string device;
     py_main := py_main device |}.

(** The device with a decoder that rejects whatever is longer than 64
    bytes, the search path among it. *)
Definition device_short_decoder : Platform :=
  {| dl_open := dl_open device;
     dl_sym := dl_sym device;
     native_locale := native_locale device;
     decode_locale := fun _ arg =>
       if Nat.leb (String.length arg) 64 then ascii_decode arg else None;
     run_simple_string := run_simple_string device;
     py_main := py_main device |}.

(** An unpack root of 297 characters. *)
Definition very_deep_root : string :=
  deep_root +:+ "/nested/application/slots/0123456789/0123456789/0123456789/0123456789/end".

Definition very_deep_env : gmap string string :=
  {[ "ANDROID_ARGUMENT" := very_deep_root; "EXEPATH" := runtime_path ]}.

(** An environment with values for names [main] never writes. *)
Definition env_with_home : gmap string string :=
  {[ "ANDROID_ARGUMENT" := "/data/app-root"; "EXEPATH" := runtime_path;
     "HOME" := "/data/home"; "P4A_BOOTSTRAP" := "webview"; "PYTHON_NAME" := "py" ]}.

(** The state in which [deep_env] reaches the path-and-script phase. *)
Definition deep_state : State :=
  mkState (resolved_env deep_root deep_env) None true "C" EmptyString [].

End Sample.

(** * Properties *)

(** ** Strings *)

Lemma length_append (s t : string) :
  String.length (s +:+ t) = (String.length s + String.length t)%nat.
Proof.
  induction s as [|c s IH]; [reflexivity|].
  change (S (String.length (s +:+ t)) = S (String.length s + String.length t)).
  now rewrite IH.
Qed.

Lemma length_truncate (n : nat) (s : string) :
  String.length (truncate n s) = Nat.min n (String.length s).
Proof.
  revert s; induction n as [|n IH]; intros [|c s]; simpl; try reflexivity.
  now rewrite IH.
Qed.

Lemma truncate_fits (n : nat) (s : string) :
  (String.length s <= n)%nat -> truncate n s = s.
Proof.
  revert s; induction n as [|n IH]; intros [|c s] Hlen; simpl in *; try reflexivity.
  - lia.
  - f_equal. apply IH. lia.
Qed.

Lemma truncate_eq_iff (n : nat) (s : string) :
  truncate n s = s <-> (String.length s <= n)%nat.
Proof.
  split; [|apply truncate_fits].
  intros Heq. rewrite <- Heq, length_truncate. lia.
Qed.

Lemma truncate_prefix (n : nat) (s : string) :
  exists t, s = truncate n s +:+ t.
Proof.
  revert s; induction n as [|n IH]; intros s.
  - exists s. now destruct s.
  - destruct s as [|c s]; [now exists EmptyString|].
    destruct (IH s) as [t Ht]. exists t.
    change (String c s = String c (truncate n s +:+ t)). now f_equal.
Qed.

(** ** States *)

Lemma log_calls_nil (s : State) : log_calls [] s = s.
Proof. destruct s. unfold log_calls. simpl. now rewrite app_nil_r. Qed.

Lemma log_call_calls (e : Event) (s : State) : log_call e s = log_calls [e] s.
Proof. reflexivity. Qed.

Lemma log_calls_calls (l k : list Event) (s : State) :
  log_calls k (log_calls l s) = log_calls (l ++ k) s.
Proof. unfold log_calls. simpl. now rewrite app_assoc. Qed.

Lemma with_dlerror_same (s : State) : with_dlerror (st_dlerror s) s = s.
Proof. now destruct s. Qed.

(** ** The monad *)

Lemma bind_done {A B} (m : M A) (k : A -> M B) (s s' : State) (a : A) :
  m s = Done a s' -> bind m k s = k a s'.
Proof. unfold bind. now intros ->. Qed.

Ltac run_with H := rewrite (bind_done _ _ _ _ _ H).

Lemma bind_exit {A B} (m : M A) (k : A -> M B) (s s' : State) (c : Z) :
  m s = Exit c s' -> bind m k s = Exit c s'.
Proof. unfold bind. now intros ->. Qed.

Lemma bind_fault {A B} (m : M A) (k : A -> M B) (s s' : State) :
  m s = Fault s' -> bind m k s = Fault s'.
Proof. unfold bind. now intros ->. Qed.

(** ** The environment resolver *)

Lemma resolver_run (s : State) (a : string) :
  st_env s !! "ANDROID_ARGUMENT" = Some a ->
  environment_resolver s = Done (st_env s !! "EXEPATH") (with_env (resolved_env a) s).
Proof.
  intros Ha. unfold environment_resolver, bind, getenv, setenv, ret. simpl.
  rewrite !lookup_insert_ne by discriminate. rewrite Ha. simpl.
  rewrite !lookup_insert_ne by discriminate.
  unfold resolved_env, with_env.
  destruct (st_env s !! "ANDROID_UNPACK") as [u|] eqn:Hu; simpl;
    rewrite ?lookup_insert_ne by discriminate;
    destruct (st_env s !! "PYTHON_NAME") as [n|] eqn:Hn; simpl; reflexivity.
Qed.

Lemma resolver_fault (s : State) :
  st_env s !! "ANDROID_ARGUMENT" = None ->
  environment_resolver s = Fault (with_env (insert "P4A_BOOTSTRAP" "SDL2") s).
Proof.
  intros Ha. unfold environment_resolver, bind, getenv, setenv, ret. simpl.
  rewrite !lookup_insert_ne by discriminate. now rewrite Ha.
Qed.

Lemma resolved_env_unpack (a : string) (env : gmap string string) :
  resolved_env a env !! "ANDROID_UNPACK" = Some (unpack_root a env).
Proof.
  unfold resolved_env, unpack_root.
  destruct (env !! "ANDROID_UNPACK") as [u|] eqn:Hu;
    destruct (env !! "PYTHON_NAME") as [n|] eqn:Hn; simpl;
    rewrite ?lookup_insert_ne by discriminate;
    rewrite ?lookup_insert_eq; auto.
Qed.

Lemma resolved_env_argument (a : string) (env : gmap string string) :
  resolved_env a env !! "ANDROID_ARGUMENT" = env !! "ANDROID_ARGUMENT".
Proof.
  unfold resolved_env.
  destruct (env !! "ANDROID_UNPACK"); destruct (env !! "PYTHON_NAME");
    now rewrite !lookup_insert_ne by discriminate.
Qed.

Lemma resolved_env_idem (a : string) (env : gmap string string) :
  resolved_env a (resolved_env a env) = resolved_env a env.
Proof.
  apply map_eq. intros k.
  unfold resolved_env at 1.
  rewrite resolved_env_unpack.
  assert (Hn : is_Some (resolved_env a env !! "PYTHON_NAME")).
  { unfold resolved_env.
    destruct (env !! "ANDROID_UNPACK"); destruct (env !! "PYTHON_NAME") eqn:Hp;
      rewrite ?lookup_insert_eq, ?lookup_insert_ne by discriminate;
      rewrite ?lookup_insert_eq, ?Hp; eauto. }
  destruct Hn as [n ->].
  destruct (decide (k = "ANDROID_APP_PATH")) as [->|Hk1].
  { rewrite lookup_insert_eq. unfold resolved_env.
    destruct (env !! "ANDROID_UNPACK"); destruct (env !! "PYTHON_NAME");
      rewrite ?lookup_insert_ne by discriminate; now rewrite lookup_insert_eq. }
  rewrite lookup_insert_ne by congruence.
  destruct (decide (k = "P4A_BOOTSTRAP")) as [->|Hk2].
  { rewrite lookup_insert_eq. unfold resolved_env.
    destruct (env !! "ANDROID_UNPACK"); destruct (env !! "PYTHON_NAME");
      rewrite ?lookup_insert_ne by discriminate; now rewrite lookup_insert_eq. }
  now rewrite lookup_insert_ne by congruence.
Qed.

(** ** The loader *)

Section Loader.

Variable P : Platform.

Lemma bind_symbol_ok (h : handle) (name : string) (s : State) :
  dl_sym P name = DlOk -> st_dlerror s = None ->
  bind_symbol P h name s = Done tt s.
Proof.
  intros Hsym Herr. unfold bind_symbol, bind, dlsym, dlerror.
  rewrite Hsym, Herr. unfold ret. f_equal.
  rewrite <- Herr. apply with_dlerror_same.
Qed.

Lemma bind_symbol_fail (h : handle) (name msg : string) (s : State) :
  dl_sym P name = DlFail msg ->
  bind_symbol P h name s = Exit 1 (write_stderr msg (with_dlerror None s)).
Proof.
  intros Hsym. unfold bind_symbol, bind, dlsym, dlerror. now rewrite Hsym.
Qed.

Lemma bind_symbols_ok (h : handle) (names : list string) (s : State) :
  Forall (fun name => dl_sym P name = DlOk) names -> st_dlerror s = None ->
  bind_symbols P h names s = Done tt s.
Proof.
  intros Hall Herr. induction Hall as [|name names Hname _ IH]; [reflexivity|].
  simpl. rewrite (bind_done _ _ s s tt) by now apply bind_symbol_ok.
  exact IH.
Qed.

Lemma bind_symbols_fail (h : handle) (names : list string) (msg : string) (s : State) :
  first_unresolved P names = Some msg -> st_dlerror s = None ->
  bind_symbols P h names s = Exit 1 (write_stderr msg s).
Proof.
  intros Hfirst Herr. induction names as [|name names IH]; [discriminate|].
  simpl in *. destruct (dl_sym P name) as [|m] eqn:Hsym.
  - rewrite (bind_done _ _ s s tt) by now apply bind_symbol_ok.
    now apply IH.
  - injection Hfirst as ->. apply bind_exit.
    rewrite (bind_symbol_fail _ _ msg) by assumption.
    do 2 f_equal. rewrite <- Herr. apply with_dlerror_same.
Qed.

Lemma first_unresolved_some (names : list string) :
  Exists (fun name => dl_sym P name <> DlOk) names ->
  exists msg name, first_unresolved P names = Some msg /\
                   In name names /\ dl_sym P name = DlFail msg.
Proof.
  induction names as [|name names IH]; intros Hex; [inversion Hex|].
  simpl. destruct (dl_sym P name) as [|m] eqn:Hsym.
  - destruct IH as (msg & n & Hf & Hin & Hn).
    { inversion Hex; subst; [congruence | assumption]. }
    exists msg, n. auto.
  - exists m, name. auto.
Qed.

Lemma loader_unfold (exePath : option string) (s : State) :
  loader P exePath s =
  (hd <- dlopen P exePath ;;
   match hd with
   | None => e <- dlerror ;; fputs_stderr e ;; exit 1
   | Some h => bind_symbols P h entry_points ;; ret h
   end) s.
Proof.
  unfold loader, entry_points, bind_symbols, bind.
  destruct (dlopen P exePath s) as [[h|] s'| |]; try reflexivity.
  repeat match goal with
         | |- context [bind_symbol P h ?n ?st] => destruct (bind_symbol P h n st) as [[] ?| |]
         end; reflexivity.
Qed.

Lemma loader_ok (exePath : option string) (s : State) :
  library_loads P exePath -> st_dlerror s = None ->
  loader P exePath s = Done tt (with_lib_open true s).
Proof.
  intros [Hopen Hsyms] Herr. rewrite loader_unfold.
  unfold bind at 1, dlopen. rewrite Hopen.
  now rewrite (bind_done _ _ _ (with_lib_open true s) tt) by now apply bind_symbols_ok.
Qed.

Lemma loader_open_fail (exePath : option string) (msg : string) (s : State) :
  dl_open P exePath = DlFail msg ->
  loader P exePath s = Exit 1 (write_stderr msg (with_dlerror None s)).
Proof.
  intros Hopen. unfold loader, bind, dlopen. now rewrite Hopen.
Qed.

Lemma loader_symbol_fail (exePath : option string) (msg : string) (s : State) :
  dl_open P exePath = DlOk -> first_unresolved P entry_points = Some msg ->
  st_dlerror s = None ->
  loader P exePath s = Exit 1 (write_stderr msg (with_lib_open true s)).
Proof.
  intros Hopen Hfirst Herr. rewrite loader_unfold.
  unfold bind at 1, dlopen. rewrite Hopen.
  apply bind_exit. now apply bind_symbols_fail.
Qed.

End Loader.

(** ** The path and script builder *)

Lemma format_bundle_dir (u : string) :
  format "%s/_python_bundle" [AStr (Some u)] = Some (bundle_dir_fmt u).
Proof. reflexivity. Qed.

Lemma format_paths (b : string) :
  format "%s/stdlib.zip:%s/modules" [AStr (Some b); AStr (Some b)] = Some (paths_fmt b).
Proof. reflexivity. Qed.

Lemma format_add_site_packages_dir (b : string) :
  format "sys.path.append('%s/site-packages')" [AStr (Some b)]
  = Some (add_site_packages_dir_fmt b).
Proof. reflexivity. Qed.

Lemma format_add_lib_path (u : string) :
  format "sys.path.append('%s/lib/python3.8/site-packages')" [AStr (Some u)]
  = Some (add_lib_path_fmt u).
Proof. reflexivity. Qed.

Lemma format_add_prefix (u : string) :
  format "sys.prefix = '%s'" [AStr (Some u)] = Some (add_prefix_fmt u).
Proof. reflexivity. Qed.

Lemma format_decode_diagnostic (i : Z) :
  format ("Fatal Python error: unable to decode the command line argument #%i" +:+ nl)
         [AInt i]
  = Some (decode_diagnostic i).
Proof. reflexivity. Qed.

Lemma path_and_script_run (P : Platform) (s : State) (u : string) :
  st_env s !! "ANDROID_UNPACK" = Some u ->
  path_and_script P s = Done tt (log_calls (script_calls P (st_locale s) u) s).
Proof.
  intros Hu.
  unfold path_and_script, bind, getenv, snprintf, pySetProgramName, pyDecodeLocale,
    pySetPath, pyInit, pyEvalInit, pySimpleString, ret.
  repeat first
    [ rewrite Hu | rewrite format_bundle_dir | rewrite format_paths
    | rewrite format_add_site_packages_dir | rewrite format_add_lib_path
    | rewrite format_add_prefix
    | rewrite log_call_calls
    | progress cbn beta iota delta [st_env st_locale st_trace log_calls] ].
  rewrite !log_calls_calls. reflexivity.
Qed.

(** ** The argument marshaler *)

Lemma with_locale_same (s : State) : with_locale (st_locale s) s = s.
Proof. now destruct s. Qed.

Lemma setlocale_run (P : Platform) (arg : option string) (s : State) :
  exists r, setlocale P arg s = Done r (with_locale (new_locale P arg (st_locale s)) s).
Proof.
  unfold setlocale, new_locale. destruct arg as [name|].
  - case_bool_decide.
    + destruct (native_locale P) as [l|]; simpl; eexists; [reflexivity|].
      now rewrite with_locale_same.
    + eexists; reflexivity.
  - eexists. now rewrite with_locale_same.
Qed.

Lemma new_locale_named (P : Platform) (name cur : string) :
  name <> EmptyString -> new_locale P (Some name) cur = name.
Proof. intros Hne. unfold new_locale. now case_bool_decide. Qed.

Section Marshaler.

Variable P : Platform.

Lemma decode_loop_ok (oldloc : string) (tail : list cell) (rest : list string) :
  forall (pre : list string) (wpre wrest : list wstring) (s : State),
    length wpre = length pre ->
    decodes P (st_locale s) rest wrest ->
    decode_loop P (length rest) (length pre) (pre ++ rest) oldloc
      ((Ptr <$> wpre) ++ replicate (length rest) Uninit ++ tail)
      ((Ptr <$> wpre) ++ replicate (length rest) Uninit ++ tail) s
    = Done ((Ptr <$> (wpre ++ wrest)) ++ tail, (Ptr <$> (wpre ++ wrest)) ++ tail)
           (log_calls (EvDecodeLocale <$> rest) s).
Proof.
  induction rest as [|a rest IH]; intros pre wpre wrest s Hlen Hdec.
  - inversion Hdec; subst. simpl. unfold ret.
    now rewrite app_nil_r, log_calls_nil.
  - inversion Hdec as [|a' w rest' wrest' Ha Hrest]; subst.
    cbn [length decode_loop]. rewrite list_lookup_middle by reflexivity.
    unfold bind at 1, pyDecodeLocale. rewrite Ha.
    assert (Hins : <[length pre := Ptr w]>
                     ((Ptr <$> wpre) ++ replicate (S (length rest)) Uninit ++ tail)
                   = (Ptr <$> (wpre ++ [w])) ++ replicate (length rest) Uninit ++ tail).
    { rewrite insert_app_r_alt by (rewrite length_fmap; lia).
      rewrite length_fmap, Hlen, Nat.sub_diag, fmap_app, <- app_assoc.
      reflexivity. }
    cbn [replicate app] in Hins |- *. rewrite Hins.
    replace (S (length pre)) with (length (pre ++ [a])) by (rewrite length_app; simpl; lia).
    replace (pre ++ a :: rest) with ((pre ++ [a]) ++ rest) by now rewrite <- app_assoc.
    rewrite (IH (pre ++ [a]) (wpre ++ [w]) wrest').
    + rewrite log_call_calls, log_calls_calls, <- !app_assoc. reflexivity.
    + rewrite !length_app. simpl. lia.
    + exact Hrest.
Qed.

Lemma decode_loop_fail (oldloc : string) (bad : string) (post mid : list string) :
  forall (pre : list string) (wmid : list wstring) (a1 a2 : list cell) (s : State),
    decodes P (st_locale s) mid wmid ->
    decode_locale P (st_locale s) bad = None ->
    decode_loop P (length (mid ++ bad :: post)) (length pre)
      (pre ++ mid ++ bad :: post) oldloc a1 a2 s
    = Exit 1 (write_stderr (decode_diagnostic (Z.of_nat (length (pre ++ mid)) + 1))
                (log_calls (EvDecodeLocale <$> (mid ++ [bad])) s)).
Proof.
  induction mid as [|a mid IH]; intros pre wmid a1 a2 s Hdec Hbad.
  - cbn [app length decode_loop]. rewrite list_lookup_middle by reflexivity.
    unfold bind at 1, pyDecodeLocale. rewrite Hbad.
    unfold bind, free, ret, fprintf_stderr, exit.
    rewrite app_nil_r, format_decode_diagnostic. reflexivity.
  - inversion Hdec as [|a' w mid' wmid' Ha Hmid]; subst.
    cbn [app length decode_loop]. rewrite list_lookup_middle by reflexivity.
    unfold bind at 1, pyDecodeLocale. rewrite Ha.
    replace (S (length pre)) with (length (pre ++ [a])) by (rewrite length_app; simpl; lia).
    replace (pre ++ a :: mid ++ bad :: post) with ((pre ++ [a]) ++ mid ++ bad :: post)
      by now rewrite <- app_assoc.
    rewrite (IH (pre ++ [a]) wmid') by assumption.
    rewrite log_call_calls, log_calls_calls, <- !app_assoc. reflexivity.
Qed.

End Marshaler.

Lemma with_locale_log_calls (l : string) (k : list Event) (s : State) :
  log_calls k (with_locale l s) = with_locale l (log_calls k s).
Proof. reflexivity. Qed.

Section MarshalerRuns.

Variable P : Platform.

Lemma marshaler_prologue (argv : list string) (s : State) :
  marshaler P (length argv) argv s
  = (arrays <- decode_loop P (length argv) 0 argv (st_locale s)
                 (replicate (length argv) Uninit ++ [Uninit])
                 (replicate (length argv) Uninit ++ [Uninit]) ;;
     setlocale P (Some (st_locale s)) ;;
     free (st_locale s) ;;
     ret (<[length argv := Null]> (fst arrays), <[length argv := Null]> (snd arrays)))
      (with_locale (decoding_locale P (st_locale s))
         (log_calls [EvRawMalloc (length argv + 1); EvRawMalloc (length argv + 1)] s)).
Proof.
  unfold marshaler.
  rewrite (bind_done _ _ s (log_calls [EvRawMalloc (length argv + 1)] s)
             (replicate (length argv + 1) Uninit)) by reflexivity.
  rewrite (bind_done _ _ _
             (log_calls [EvRawMalloc (length argv + 1)]
                (log_calls [EvRawMalloc (length argv + 1)] s))
             (replicate (length argv + 1) Uninit)) by reflexivity.
  rewrite log_calls_calls. cbn [app].
  set (s1 := log_calls _ s).
  rewrite (bind_done _ _ s1 s1 (Some (st_locale s))) by reflexivity.
  rewrite (bind_done _ _ s1 s1 (st_locale s)) by reflexivity.
  destruct (setlocale_run P (Some EmptyString) s1) as [r Hr].
  run_with Hr.
  rewrite replicate_add. reflexivity.
Qed.

Lemma marshaler_ok (argv : list string) (ws : list wstring) (s : State) :
  decodes P (decoding_locale P (st_locale s)) argv ws ->
  marshaler P (length argv) argv s
  = Done (marshaled ws, marshaled ws)
         (with_locale (restored_locale P (st_locale s)) (log_calls (marshal_calls argv) s)).
Proof.
  intros Hdec. rewrite (marshaler_prologue argv s).
  set (s2 := with_locale _ _).
  pose proof (decode_loop_ok P (st_locale s) [Uninit] argv [] [] ws s2 eq_refl Hdec) as Hloop.
  cbn [app fmap list_fmap length] in Hloop.
  run_with Hloop.
  cbn [fst snd].
  destruct (setlocale_run P (Some (st_locale s)) (log_calls (EvDecodeLocale <$> argv) s2))
    as [r Hr].
  run_with Hr.
  unfold free, bind, ret. f_equal.
  - assert (Hlen : length argv = length (Ptr <$> ws)).
    { rewrite length_fmap. apply (Forall2_length _ _ _ Hdec). }
    rewrite Hlen, insert_app_r_alt, Nat.sub_diag by lia. reflexivity.
  - subst s2. rewrite with_locale_log_calls, log_calls_calls. reflexivity.
Qed.

Lemma marshaler_fail (pre post : list string) (bad : string) (wpre : list wstring)
    (s : State) :
  decodes P (decoding_locale P (st_locale s)) pre wpre ->
  decode_locale P (decoding_locale P (st_locale s)) bad = None ->
  marshaler P (length (pre ++ bad :: post)) (pre ++ bad :: post) s
  = Exit 1 (with_locale (decoding_locale P (st_locale s))
              (write_stderr (decode_diagnostic (Z.of_nat (length pre) + 1))
                 (log_calls ([EvRawMalloc (length (pre ++ bad :: post) + 1);
                              EvRawMalloc (length (pre ++ bad :: post) + 1)]
                             ++ (EvDecodeLocale <$> (pre ++ [bad]))) s))).
Proof.
  intros Hdec Hbad. rewrite (marshaler_prologue _ s).
  set (s2 := with_locale _ _). apply bind_exit.
  rewrite (decode_loop_fail P (st_locale s) bad post pre [] wpre _ _ s2 Hdec Hbad).
  subst s2. rewrite with_locale_log_calls, log_calls_calls. reflexivity.
Qed.

End MarshalerRuns.

(** ** The invoker *)

Section Invoker.

Variable P : Platform.

Lemma free_loop_run (tail rest : list cell) :
  forall (pre : list cell) (s : State),
    free_loop (length rest) (length pre) (pre ++ rest ++ tail) s
    = Done tt (log_calls ((fun c => EvRawFree (BString c)) <$> rest) s).
Proof.
  induction rest as [|c rest IH]; intros pre s.
  - simpl. unfold ret. now rewrite log_calls_nil.
  - cbn [length free_loop app]. rewrite list_lookup_middle by reflexivity.
    rewrite (bind_done _ _ s (log_calls [EvRawFree (BString c)] s) tt) by reflexivity.
    replace (S (length pre)) with (length (pre ++ [c])) by (rewrite length_app; simpl; lia).
    replace (pre ++ c :: rest ++ tail) with ((pre ++ [c]) ++ rest ++ tail)
      by now rewrite <- app_assoc.
    rewrite IH, log_calls_calls. reflexivity.
Qed.

Lemma invoker_run (h : handle) (argc : nat) (ws : list wstring) (argv_copy : list cell)
    (s : State) :
  argc = length ws ->
  invoker P (Some h) argc argv_copy (marshaled ws) s
  = Done (py_main P (st_trace s) argc argv_copy)
         (with_lib_open false (log_calls (EvMain argc argv_copy :: teardown_calls ws) s)).
Proof.
  intros ->. unfold invoker.
  rewrite (bind_done _ _ s (log_calls [EvMain (length ws) argv_copy] s)
             (py_main P (st_trace s) (length ws) argv_copy)) by reflexivity.
  pose proof (free_loop_run [Null] (Ptr <$> ws) [] (log_calls [EvMain (length ws) argv_copy] s))
    as Hfree.
  rewrite length_fmap in Hfree. cbn [app length] in Hfree.
  unfold marshaled. run_with Hfree.
  unfold bind, PyMem_RawFree, dlclose, ret.
  rewrite !log_call_calls, !log_calls_calls. f_equal.
  unfold teardown_calls. rewrite <- list_fmap_compose. reflexivity.
Qed.

End Invoker.

(** ** Whole runs of [main] *)

Section Runs.

Variable P : Platform.
Variables (env : gmap string string) (loc a : string).
Hypothesis Harg : env !! "ANDROID_ARGUMENT" = Some a.

Lemma main_fault_free_prefix (argv : list string) :
  main P argv (initial_state env loc)
  = (h <- loader P (env !! "EXEPATH") ;;
     path_and_script P ;;
     arrays <- marshaler P (length argv) argv ;;
     invoker P (Some h) (length argv) (fst arrays) (snd arrays))
      (mkState (resolved_env a env) None false loc EmptyString []).
Proof.
  unfold main. now run_with (resolver_run (initial_state env loc) a Harg).
Qed.

Lemma main_open_fail (argv : list string) (msg : string) :
  dl_open P (env !! "EXEPATH") = DlFail msg ->
  main P argv (initial_state env loc)
  = Exit 1 (mkState (resolved_env a env) None false loc msg []).
Proof.
  intros Hopen. rewrite main_fault_free_prefix. apply bind_exit.
  now rewrite (loader_open_fail P _ msg).
Qed.

Lemma main_symbol_fail (argv : list string) (msg : string) :
  dl_open P (env !! "EXEPATH") = DlOk ->
  first_unresolved P entry_points = Some msg ->
  main P argv (initial_state env loc)
  = Exit 1 (mkState (resolved_env a env) None true loc msg []).
Proof.
  intros Hopen Hfirst. rewrite main_fault_free_prefix. apply bind_exit.
  now rewrite (loader_symbol_fail P _ msg).
Qed.

Lemma main_scripted (argv : list string) :
  library_loads P (env !! "EXEPATH") ->
  main P argv (initial_state env loc)
  = (arrays <- marshaler P (length argv) argv ;;
     invoker P (Some tt) (length argv) (fst arrays) (snd arrays))
      (mkState (resolved_env a env) None true loc EmptyString (script_calls P loc (unpack_root a env))).
Proof.
  intros Hload. rewrite main_fault_free_prefix.
  rewrite (bind_done _ _ _ _ _
             (loader_ok P _ (mkState (resolved_env a env) None false loc EmptyString []) Hload eq_refl)).
  now rewrite (bind_done _ _ _ _ _
                 (path_and_script_run P
                    (mkState (resolved_env a env) None true loc EmptyString []) (unpack_root a env)
                    (resolved_env_unpack a env))).
Qed.

Lemma main_ok (argv : list string) (ws : list wstring) :
  library_loads P (env !! "EXEPATH") ->
  decodes P (decoding_locale P loc) argv ws ->
  main P argv (initial_state env loc)
  = Done (py_main P (script_calls P loc (unpack_root a env) ++ marshal_calls argv) (length argv) (marshaled ws))
         (mkState (resolved_env a env) None false (restored_locale P loc) EmptyString
            (script_calls P loc (unpack_root a env) ++ marshal_calls argv
             ++ EvMain (length argv) (marshaled ws) :: teardown_calls ws)).
Proof.
  intros Hload Hdec. rewrite main_scripted by assumption.
  rewrite (bind_done _ _ _ _ _
             (marshaler_ok P argv ws
                (mkState (resolved_env a env) None true loc EmptyString (script_calls P loc (unpack_root a env))) Hdec)).
  cbn [fst snd]. rewrite (invoker_run P tt (length argv) ws) by apply (Forall2_length _ _ _ Hdec).
  reflexivity.
Qed.

Lemma main_decode_fail (pre post : list string) (bad : string) (wpre : list wstring) :
  library_loads P (env !! "EXEPATH") ->
  decodes P (decoding_locale P loc) pre wpre ->
  decode_locale P (decoding_locale P loc) bad = None ->
  main P (pre ++ bad :: post) (initial_state env loc)
  = Exit 1 (mkState (resolved_env a env) None true (decoding_locale P loc)
              (decode_diagnostic (Z.of_nat (length pre) + 1))
              (script_calls P loc (unpack_root a env)
               ++ [EvRawMalloc (length (pre ++ bad :: post) + 1);
                   EvRawMalloc (length (pre ++ bad :: post) + 1)]
               ++ (EvDecodeLocale <$> (pre ++ [bad])))).
Proof.
  intros Hload Hdec Hbad. rewrite main_scripted by assumption.
  apply bind_exit.
  now rewrite (marshaler_fail P pre post bad wpre
                 (mkState (resolved_env a env) None true loc EmptyString (script_calls P loc (unpack_root a env)))).
Qed.

End Runs.

Lemma main_fault (P : Platform) (env : gmap string string) (loc : string) (argv : list string) :
  env !! "ANDROID_ARGUMENT" = None ->
  main P argv (initial_state env loc)
  = Fault (mkState (<["P4A_BOOTSTRAP" := "SDL2"]> env) None false loc EmptyString []).
Proof.
  intros Harg. unfold main. apply bind_fault.
  now rewrite (resolver_fault (initial_state env loc) Harg).
Qed.

(** ** Classifying inputs *)

Lemma first_unresolved_none (P : Platform) (names : list string) :
  first_unresolved P names = None -> Forall (fun name => dl_sym P name = DlOk) names.
Proof.
  induction names as [|name names IH]; simpl; intros Hnone; [constructor|].
  destruct (dl_sym P name) eqn:Hsym; [|discriminate]. constructor; auto.
Qed.

Lemma library_loads_or_not (P : Platform) (exePath : option string) :
  library_loads P exePath \/
  (exists msg, dl_open P exePath = DlFail msg) \/
  (dl_open P exePath = DlOk /\ exists msg, first_unresolved P entry_points = Some msg).
Proof.
  destruct (dl_open P exePath) as [|msg] eqn:Hopen; [|right; left; eauto].
  destruct (first_unresolved P entry_points) as [msg|] eqn:Hfirst.
  - right; right; eauto.
  - left. split; [assumption|]. now apply first_unresolved_none.
Qed.

Lemma first_undecodable_none (P : Platform) (loc : string) (argv : list string) :
  first_undecodable P loc argv = None -> exists ws, decodes P loc argv ws.
Proof.
  induction argv as [|arg argv IH]; simpl; intros Hnone.
  - exists []. constructor.
  - destruct (decode_locale P loc arg) as [w|] eqn:Hw; [|discriminate].
    destruct (first_undecodable P loc argv); [discriminate|].
    destruct (IH eq_refl) as [ws Hws]. exists (w :: ws). now constructor.
Qed.

Lemma first_undecodable_some (P : Platform) (loc : string) (argv : list string) (i : nat) :
  first_undecodable P loc argv = Some i ->
  exists pre bad post wpre,
    argv = pre ++ bad :: post /\ length pre = i /\
    decodes P loc pre wpre /\ decode_locale P loc bad = None.
Proof.
  revert i; induction argv as [|arg argv IH]; simpl; intros i Hsome; [discriminate|].
  destruct (decode_locale P loc arg) as [w|] eqn:Hw.
  - destruct (first_undecodable P loc argv) as [j|]; [|discriminate].
    injection Hsome as <-.
    destruct (IH j eq_refl) as (pre & bad & post & wpre & -> & Hlen & Hdec & Hbad).
    exists (arg :: pre), bad, post, (w :: wpre). repeat split; simpl; auto.
    now constructor.
  - injection Hsome as <-. exists [], arg, argv, []. repeat split; auto. constructor.
Qed.

Lemma decodes_first_undecodable (P : Platform) (loc : string) (argv : list string)
    (ws : list wstring) :
  decodes P loc argv ws -> first_undecodable P loc argv = None.
Proof.
  induction 1 as [|arg w argv ws Hw _ IH]; simpl; [reflexivity|].
  now rewrite Hw, IH.
Qed.

Lemma first_undecodable_at (P : Platform) (loc : string) (argv : list string)
    (i : nat) (bad : string) :
  argv !! i = Some bad ->
  decode_locale P loc bad = None ->
  (forall j arg, (j < i)%nat -> argv !! j = Some arg -> decode_locale P loc arg <> None) ->
  first_undecodable P loc argv = Some i.
Proof.
  revert i; induction argv as [|arg argv IH]; intros i Hi Hbad Hbefore; [discriminate|].
  destruct i as [|i]; simpl in *.
  - injection Hi as ->. now rewrite Hbad.
  - destruct (decode_locale P loc arg) as [w|] eqn:Hw.
    + rewrite (IH i); auto. intros j arg' Hj. apply (Hbefore (S j)). lia.
    + exfalso. apply (Hbefore O arg); [lia | reflexivity | assumption].
Qed.

(** ** Calls after the script *)

Lemma marshal_calls_late (argv : list string) :
  Forall (fun e => is_script_call e = false) (marshal_calls argv).
Proof.
  unfold marshal_calls. repeat constructor.
  induction argv; simpl; now constructor.
Qed.

Lemma decode_calls_late (argv : list string) :
  Forall (fun e => is_script_call e = false) (EvDecodeLocale <$> argv).
Proof. induction argv; simpl; now constructor. Qed.

Lemma teardown_calls_late (ws : list wstring) :
  Forall (fun e => is_script_call e = false) (teardown_calls ws).
Proof.
  unfold teardown_calls. apply Forall_app. split; [|now repeat constructor].
  induction ws; simpl; now constructor.
Qed.

Lemma decode_calls_no_main (argv : list string) (argc : nat) (av : list cell) :
  ~ In (EvMain argc av) (EvDecodeLocale <$> argv).
Proof. induction argv; simpl; [tauto | intros [H|H]; [discriminate | auto]]. Qed.

Lemma script_calls_no_main (P : Platform) (loc u : string) (argc : nat) (av : list cell) :
  ~ In (EvMain argc av) (script_calls P loc u).
Proof. simpl. intuition discriminate. Qed.

(** ** When the buffers are large enough *)

Lemma length_bundle_dir_fmt (u : string) :
  String.length (bundle_dir_fmt u) = (String.length u + 15)%nat.
Proof. unfold bundle_dir_fmt. now rewrite length_append. Qed.

Lemma length_paths_fmt (b : string) :
  String.length (paths_fmt b) = (2 * String.length b + 20)%nat.
Proof.
  unfold paths_fmt. rewrite !length_append.
  change (String.length "/stdlib.zip:") with 12%nat.
  change (String.length "/modules") with 8%nat. lia.
Qed.

Lemma length_add_site_packages_dir_fmt (b : string) :
  String.length (add_site_packages_dir_fmt b) = (String.length b + 33)%nat.
Proof.
  unfold add_site_packages_dir_fmt.
  rewrite !length_append.
  change (String.length "sys.path.append('") with 17%nat.
  change (String.length "/site-packages')") with 16%nat. lia.
Qed.

Lemma length_add_lib_path_fmt (u : string) :
  String.length (add_lib_path_fmt u) = (String.length u + 47)%nat.
Proof.
  unfold add_lib_path_fmt. rewrite !length_append.
  change (String.length "sys.path.append('") with 17%nat.
  change (String.length "/lib/python3.8/site-packages')") with 30%nat. lia.
Qed.

Lemma length_add_prefix_fmt (u : string) :
  String.length (add_prefix_fmt u) = (String.length u + 15)%nat.
Proof.
  unfold add_prefix_fmt. rewrite !length_append.
  change (String.length "sys.prefix = '") with 14%nat.
  change (String.length "'") with 1%nat. lia.
Qed.

Lemma bundle_dir_fits (u : string) :
  (String.length (bundle_dir_fmt u) <= 255)%nat -> python_bundle_dir u = bundle_dir_fmt u.
Proof. apply truncate_fits. Qed.

Lemma paths_fits (u : string) :
  (String.length (paths_fmt (bundle_dir_fmt u)) <= 255)%nat ->
  paths u = paths_fmt (bundle_dir_fmt u).
Proof.
  intros Hfit. unfold paths.
  rewrite bundle_dir_fits by (rewrite length_paths_fmt in Hfit; lia).
  now apply truncate_fits.
Qed.

Lemma add_site_packages_dir_fits (u : string) :
  (String.length (add_site_packages_dir_fmt (bundle_dir_fmt u)) <= 255)%nat ->
  add_site_packages_dir u = add_site_packages_dir_fmt (bundle_dir_fmt u).
Proof.
  intros Hfit. unfold add_site_packages_dir.
  rewrite bundle_dir_fits by (rewrite length_add_site_packages_dir_fmt in Hfit; lia).
  now apply truncate_fits.
Qed.

Lemma first_unresolved_not_all (P : Platform) (names : list string) (msg : string) :
  first_unresolved P names = Some msg ->
  ~ Forall (fun name => dl_sym P name = DlOk) names.
Proof.
  induction names as [|name names IH]; simpl; intros Hfirst Hall; [discriminate|].
  inversion Hall as [|? ? Hname Hrest]; subst. rewrite Hname in Hfirst. now apply IH.
Qed.
(** ** The trace once the library has loaded *)

Lemma main_trace_after_load (P : Platform) (env : gmap string string) (loc a : string)
    (argv : list string) :
  env !! "ANDROID_ARGUMENT" = Some a ->
  library_loads P (env !! "EXEPATH") ->
  exists rest,
    st_trace (final_state (main P argv (initial_state env loc)))
    = script_calls P loc (unpack_root a env) ++ rest /\
    Forall (fun e => is_script_call e = false) rest.
Proof.
  intros Harg Hload.
  destruct (first_undecodable P (decoding_locale P loc) argv) as [i|] eqn:Hfirst.
  - destruct (first_undecodable_some P _ _ _ Hfirst)
      as (pre & bad & post & wpre & -> & _ & Hpre & Hbad).
    rewrite (main_decode_fail P env loc a Harg pre post bad wpre Hload Hpre Hbad).
    eexists. split; [reflexivity|].
    apply Forall_app. split; [now repeat constructor | apply decode_calls_late].
  - destruct (first_undecodable_none P _ _ Hfirst) as [ws Hdec].
    rewrite (main_ok P env loc a Harg argv ws Hload Hdec).
    eexists. split; [reflexivity|].
    apply Forall_app. split; [apply marshal_calls_late|].
    constructor; [reflexivity | apply teardown_calls_late].
Qed.

(** ** Results handed back by the statements *)

Lemma main_any_result (P : Platform) (r : list Event -> string -> Z)
    (argv : list string) (s : State) :
  main (with_run_simple_string r P) argv s = main P argv s.
Proof. reflexivity. Qed.

(** ** Examples *)

Example decimal_two : decimal 2 = "2".
Proof. reflexivity. Qed.

Example deep_root_search_path_is_cut :
  String.length (paths_fmt (bundle_dir_fmt Sample.deep_root)) = 498%nat /\
  String.length (paths Sample.deep_root) = 255%nat.
Proof. split; reflexivity. Qed.

(** * Main results *)

(** ** C1 *)

(** C1, as the claim has it, fails for a long unpack root: what reaches
    [Py_SetPath] is the decoding of the first 255 characters only. *)
Lemma search_path_cut_for_deep_root :
  set_path_args
    (st_trace (final_state
       (main Sample.device Sample.argv (initial_state Sample.deep_env "C"))))
  = [decode_locale Sample.device "C" (truncate 255 Sample.deep_search_path)] /\
  set_path_args
    (st_trace (final_state
       (main Sample.device Sample.argv (initial_state Sample.deep_env "C"))))
  <> [decode_locale Sample.device "C" Sample.deep_search_path].
Proof.
  split; [vm_compute; reflexivity|].
  intros Heq. apply (f_equal (fmap (fmap (length (A := N))))) in Heq.
  vm_compute in Heq. discriminate Heq.
Qed.

(** C1, amended.  Let the library load, and let the search path for
    unpack root [U] and bundle root [B = U/_python_bundle] fit its
    buffer.  The runtime calls then start with: the search path
    [B/stdlib.zip:B/modules] decoded and given to [Py_SetPath],
    [Py_Initialize], [PyEval_InitThreads], and the statements in the
    order import, preamble, prefix, [B/site-packages],
    [U/lib/python3.8/site-packages], ['.'].  No call of this kind comes
    later; all other calls, [Py_Main] among them, follow. *)
Theorem search_path_and_statement_order (P : Platform) (env : gmap string string)
    (loc a U : string) (argv : list string) :
  env !! "ANDROID_ARGUMENT" = Some a ->
  library_loads P (env !! "EXEPATH") ->
  unpack_root a env = U ->
  (String.length (paths_fmt (bundle_dir_fmt U)) <= 255)%nat ->
  exists rest,
    st_trace (final_state (main P argv (initial_state env loc)))
    = [EvSetProgramName "android_python";
       EvDecodeLocale (paths_fmt (bundle_dir_fmt U));
       EvSetPath (decode_locale P loc (paths_fmt (bundle_dir_fmt U)));
       EvInitialize;
       EvEvalInitThreads;
       EvRunSimpleString import_statement;
       EvRunSimpleString preamble_statement;
       EvRunSimpleString (add_prefix_fmt U);
       EvRunSimpleString (add_site_packages_dir_fmt (bundle_dir_fmt U));
       EvRunSimpleString (add_lib_path_fmt U);
       EvRunSimpleString dot_statement]
      ++ rest /\
    Forall (fun e => is_script_call e = false) rest.
Proof.
  intros Harg Hload <- Hfit.
  destruct (main_trace_after_load P env loc a argv Harg Hload) as (rest & Htrace & Hrest).
  exists rest. split; [|assumption]. rewrite Htrace. f_equal.
  pose proof Hfit as Hlen. rewrite length_paths_fmt, length_bundle_dir_fmt in Hlen.
  unfold script_calls.
  rewrite (paths_fits _ Hfit).
  rewrite add_site_packages_dir_fits
    by (rewrite length_add_site_packages_dir_fmt, length_bundle_dir_fmt; lia).
  unfold add_prefix, add_lib_path.
  rewrite !truncate_fits
    by (rewrite ?length_add_prefix_fmt, ?length_add_lib_path_fmt; lia).
  reflexivity.
Qed.

Lemma search_path_and_statement_order_witness :
  exists rest,
    st_trace (final_state (main Sample.device Sample.argv Sample.state))
    = [EvSetProgramName "android_python";
       EvDecodeLocale (paths_fmt (bundle_dir_fmt "/data/app-root"));
       EvSetPath (decode_locale Sample.device "C" (paths_fmt (bundle_dir_fmt "/data/app-root")));
       EvInitialize;
       EvEvalInitThreads;
       EvRunSimpleString import_statement;
       EvRunSimpleString preamble_statement;
       EvRunSimpleString (add_prefix_fmt "/data/app-root");
       EvRunSimpleString (add_site_packages_dir_fmt (bundle_dir_fmt "/data/app-root"));
       EvRunSimpleString (add_lib_path_fmt "/data/app-root");
       EvRunSimpleString dot_statement]
      ++ rest /\
    Forall (fun e => is_script_call e = false) rest.
Proof.
  apply (search_path_and_statement_order Sample.device Sample.env "C" "/data/app-root"
           "/data/app-root" Sample.argv).
  - reflexivity.
  - split; [reflexivity|]. repeat constructor.
  - reflexivity.
  - vm_compute. lia.
Defined.

Example app_root_search_path :
  paths_fmt (bundle_dir_fmt "/data/app-root")
  = "/data/app-root/_python_bundle/stdlib.zip:/data/app-root/_python_bundle/modules".
Proof. reflexivity. Qed.

(** ** C2 *)

(** C2.  On a platform whose loader messages are not empty, and with
    [ANDROID_ARGUMENT] set so that the loader is reached: if [dlopen]
    fails, or one of the nine symbols does not resolve, the process
    exits with status 1, something has been written to standard error,
    and [Py_Main] has not been called. *)
Theorem loader_failure_is_fatal (P : Platform) (env : gmap string string)
    (loc a : string) (argv : list string) :
  env !! "ANDROID_ARGUMENT" = Some a ->
  diagnostics_nonempty P ->
  dl_open P (env !! "EXEPATH") <> DlOk \/
    Exists (fun name => dl_sym P name <> DlOk) entry_points ->
  exists s',
    main P argv (initial_state env loc) = Exit 1 s' /\
    1 <> 0 /\
    st_stderr s' <> EmptyString /\
    forall argc argv_copy, ~ In (EvMain argc argv_copy) (st_trace s').
Proof.
  intros Harg [Hopen_msg Hsym_msg] Hfail.
  destruct (dl_open P (env !! "EXEPATH")) as [|msg] eqn:Hopen.
  - destruct Hfail as [Hfail|Hfail]; [congruence|].
    destruct (first_unresolved_some P _ Hfail) as (msg & name & Hfirst & _ & Hname).
    eexists. split; [now apply (main_symbol_fail P env loc a Harg argv msg)|].
    cbn [st_stderr st_trace]. repeat split; [lia | eauto | auto].
  - eexists. split; [now apply (main_open_fail P env loc a Harg argv msg)|].
    cbn [st_stderr st_trace]. repeat split; [lia | eauto | auto].
Qed.

Lemma loader_failure_is_fatal_witness :
  (exists s',
     main Sample.device Sample.argv (initial_state Sample.env_no_library "C") = Exit 1 s' /\
     1 <> 0 /\ st_stderr s' <> EmptyString /\
     forall argc argv_copy, ~ In (EvMain argc argv_copy) (st_trace s')) /\
  (exists s',
     main Sample.stripped_device Sample.argv Sample.state = Exit 1 s' /\
     1 <> 0 /\ st_stderr s' <> EmptyString /\
     forall argc argv_copy, ~ In (EvMain argc argv_copy) (st_trace s')).
Proof.
  split.
  - apply (loader_failure_is_fatal Sample.device Sample.env_no_library "C" "/data/app-root").
    + reflexivity.
    + split; intros x msg; simpl; case_bool_decide; intros [=]; subst; discriminate.
    + left. vm_compute. discriminate.
  - apply (loader_failure_is_fatal Sample.stripped_device Sample.env "C" "/data/app-root").
    + reflexivity.
    + split; intros x msg; simpl; repeat case_bool_decide; intros [=]; subst; discriminate.
    + right. unfold entry_points. do 8 apply Exists_cons_tl.
      apply Exists_cons_hd. vm_compute. discriminate.
Defined.

(** ** C3 *)

(** C3.  If every argument decodes, the marshaler returns two arrays of
    [argc + 1] cells.  Cell [i < argc] of each points to the decoding of
    [argv[i]], cell [argc] of each is null, and the two arrays are
    equal.  The invoker, entered with them, calls [Py_Main] first, on an
    array that still equals the second one. *)
Theorem marshaler_twin_arrays (P : Platform) (argv : list string) (ws : list wstring)
    (s : State) :
  decodes P (decoding_locale P (st_locale s)) argv ws ->
  exists argv_copy argv_copy2 s',
    marshaler P (length argv) argv s = Done (argv_copy, argv_copy2) s' /\
    length argv_copy = (length argv + 1)%nat /\
    length argv_copy2 = (length argv + 1)%nat /\
    (forall i w, ws !! i = Some w ->
       argv_copy !! i = Some (Ptr w) /\ argv_copy2 !! i = Some (Ptr w)) /\
    argv_copy !! length argv = Some Null /\
    argv_copy2 !! length argv = Some Null /\
    argv_copy = argv_copy2 /\
    exists r s'',
      invoker P (Some tt) (length argv) argv_copy argv_copy2 s' = Done r s'' /\
      st_trace s'' = st_trace s' ++ EvMain (length argv) argv_copy2 :: teardown_calls ws.
Proof.
  intros Hdec. pose proof (Forall2_length _ _ _ Hdec) as Hlen.
  exists (marshaled ws), (marshaled ws). eexists.
  split; [now apply marshaler_ok|].
  assert (Hsize : length (marshaled ws) = (length argv + 1)%nat).
  { unfold marshaled. rewrite length_app, length_fmap. simpl. lia. }
  assert (Hcell : forall i w, ws !! i = Some w -> marshaled ws !! i = Some (Ptr w)).
  { intros i w Hw. unfold marshaled.
    rewrite lookup_app_l by (rewrite length_fmap; now apply lookup_lt_Some in Hw).
    now rewrite list_lookup_fmap, Hw. }
  assert (Hnull : marshaled ws !! length argv = Some Null).
  { unfold marshaled. apply list_lookup_middle. now rewrite length_fmap. }
  repeat split; auto.
  eexists; eexists. split; [now apply invoker_run|]. reflexivity.
Qed.

Lemma marshaler_twin_arrays_witness :
  exists argv_copy argv_copy2 s',
    marshaler Sample.device (length Sample.argv) Sample.argv Sample.state
    = Done (argv_copy, argv_copy2) s' /\
    length argv_copy = (length Sample.argv + 1)%nat /\
    length argv_copy2 = (length Sample.argv + 1)%nat /\
    (forall i w, Sample.wargv !! i = Some w ->
       argv_copy !! i = Some (Ptr w) /\ argv_copy2 !! i = Some (Ptr w)) /\
    argv_copy !! length Sample.argv = Some Null /\
    argv_copy2 !! length Sample.argv = Some Null /\
    argv_copy = argv_copy2 /\
    exists r s'',
      invoker Sample.device (Some tt) (length Sample.argv) argv_copy argv_copy2 s' = Done r s'' /\
      st_trace s''
      = st_trace s' ++ EvMain (length Sample.argv) argv_copy2
                       :: teardown_calls Sample.wargv.
Proof.
  apply (marshaler_twin_arrays Sample.device Sample.argv Sample.wargv Sample.state).
  repeat constructor.
Defined.

(** ** C4 *)

(** C4, as the claim has it, fails: after a decode failure the locale
    is the one selected for decoding, not the one in force before. *)
Lemma locale_not_restored_on_failure :
  st_locale Sample.state = "C" /\
  exists s',
    marshaler Sample.device (length Sample.argv_latin1) Sample.argv_latin1 Sample.state
    = Exit 1 s' /\
    st_locale s' = "C.UTF-8" /\
    st_locale s' <> st_locale Sample.state.
Proof.
  split; [reflexivity|]. eexists. split; [vm_compute; reflexivity|].
  split; [reflexivity | discriminate].
Qed.

(** C4, amended.  Started under a locale with a name, the marshaler
    restores that locale when every argument decodes.  When the decoder
    rejects an argument the process exits with status 1 and the locale
    stays the one selected for decoding. *)
Theorem locale_restored_on_success (P : Platform) (argv : list string) (s : State) :
  st_locale s <> EmptyString ->
  match first_undecodable P (decoding_locale P (st_locale s)) argv with
  | None =>
      exists arrays s',
        marshaler P (length argv) argv s = Done arrays s' /\
        st_locale s' = st_locale s
  | Some i =>
      exists s',
        marshaler P (length argv) argv s = Exit 1 s' /\
        st_locale s' = decoding_locale P (st_locale s)
  end.
Proof.
  intros Hname.
  destruct (first_undecodable P (decoding_locale P (st_locale s)) argv) as [i|] eqn:Hfirst.
  - destruct (first_undecodable_some P _ _ _ Hfirst)
      as (pre & bad & post & wpre & -> & _ & Hpre & Hbad).
    eexists. split; [now apply (marshaler_fail P pre post bad wpre)|]. reflexivity.
  - destruct (first_undecodable_none P _ _ Hfirst) as [ws Hdec].
    eexists; eexists. split; [now apply (marshaler_ok P argv ws)|].
    cbn [st_locale with_locale]. unfold restored_locale. now apply new_locale_named.
Qed.

Lemma locale_restored_on_success_witness :
  (exists arrays s',
     marshaler Sample.device (length Sample.argv) Sample.argv Sample.state = Done arrays s' /\
     st_locale s' = st_locale Sample.state) /\
  (exists s',
     marshaler Sample.device (length Sample.argv_latin1) Sample.argv_latin1 Sample.state
     = Exit 1 s' /\
     st_locale s' = decoding_locale Sample.device (st_locale Sample.state)).
Proof.
  split.
  - apply (locale_restored_on_success Sample.device Sample.argv Sample.state). discriminate.
  - apply (locale_restored_on_success Sample.device Sample.argv_latin1 Sample.state).
    discriminate.
Defined.

(** ** C5 *)

(** C5.  With [ANDROID_ARGUMENT] set, a run is of one of two kinds.
    Either the library loads with all nine symbols and every argument
    decodes: then [Py_Main] is called and the exit status is the integer
    that call returned.  Or one of these fails: then the exit status
    is 1. *)
Theorem exit_status_is_main_result (P : Platform) (env : gmap string string)
    (loc a : string) (argv : list string) :
  env !! "ANDROID_ARGUMENT" = Some a ->
  (bootstrap_completes P env loc argv /\
   exists before after argv_copy,
     st_trace (final_state (main P argv (initial_state env loc)))
     = before ++ EvMain (length argv) argv_copy :: after /\
     exit_status (main P argv (initial_state env loc))
     = Some (py_main P before (length argv) argv_copy))
  \/
  (~ bootstrap_completes P env loc argv /\
   exit_status (main P argv (initial_state env loc)) = Some 1 /\
   1 <> 0).
Proof.
  intros Harg. unfold bootstrap_completes.
  destruct (library_loads_or_not P (env !! "EXEPATH"))
    as [Hload | [[msg Hopen] | [Hopen [msg Hfirst]]]].
  - destruct (first_undecodable P (decoding_locale P loc) argv) as [i|] eqn:Hfirst.
    + right.
      destruct (first_undecodable_some P _ _ _ Hfirst)
        as (pre & bad & post & wpre & -> & _ & Hpre & Hbad).
      rewrite (main_decode_fail P env loc a Harg pre post bad wpre Hload Hpre Hbad).
      repeat split; [|lia].
      intros [_ [ws Hdec]]. apply decodes_first_undecodable in Hdec. congruence.
    + left. destruct (first_undecodable_none P _ _ Hfirst) as [ws Hdec].
      split; [split; eauto|].
      rewrite (main_ok P env loc a Harg argv ws Hload Hdec).
      exists (script_calls P loc (unpack_root a env) ++ marshal_calls argv),
        (teardown_calls ws), (marshaled ws).
      cbn [final_state st_trace exit_status]. split; [|reflexivity].
      now rewrite <- app_assoc.
  - right. rewrite (main_open_fail P env loc a Harg argv msg Hopen).
    repeat split; [|lia]. intros [[Hok _] _]. congruence.
  - right. rewrite (main_symbol_fail P env loc a Harg argv msg Hopen Hfirst).
    repeat split; [|lia]. intros [[_ Hall] _].
    now apply (first_unresolved_not_all P _ _ Hfirst).
Qed.

Lemma exit_status_is_main_result_witness :
  (bootstrap_completes Sample.device Sample.env "C" Sample.argv /\
   exists before after argv_copy,
     st_trace (final_state (main Sample.device Sample.argv Sample.state))
     = before ++ EvMain (length Sample.argv) argv_copy :: after /\
     exit_status (main Sample.device Sample.argv Sample.state)
     = Some (py_main Sample.device before (length Sample.argv) argv_copy))
  \/
  (~ bootstrap_completes Sample.device Sample.env "C" Sample.argv /\
   exit_status (main Sample.device Sample.argv Sample.state) = Some 1 /\
   1 <> 0).
Proof.
  apply (exit_status_is_main_result Sample.device Sample.env "C" "/data/app-root" Sample.argv).
  reflexivity.
Defined.

(** ** C6 *)

(** C6.  Let the library load and the decoder be reached at index [i]
    -- every earlier argument decodes -- and fail there.  The process
    then exits with status 1; standard error holds the one line that
    names argument [i + 1]; and [Py_Main] has not been called. *)
Theorem decode_failure_names_ordinal (P : Platform) (env : gmap string string)
    (loc a : string) (argv : list string) (i : nat) (bad : string) :
  env !! "ANDROID_ARGUMENT" = Some a ->
  library_loads P (env !! "EXEPATH") ->
  argv !! i = Some bad ->
  decode_locale P (decoding_locale P loc) bad = None ->
  (forall j arg, (j < i)%nat -> argv !! j = Some arg ->
                 decode_locale P (decoding_locale P loc) arg <> None) ->
  exists s',
    main P argv (initial_state env loc) = Exit 1 s' /\
    1 <> 0 /\
    st_stderr s'
    = "Fatal Python error: unable to decode the command line argument #"
      +:+ decimal (Z.of_nat i + 1) +:+ nl /\
    forall argc argv_copy, ~ In (EvMain argc argv_copy) (st_trace s').
Proof.
  intros Harg Hload Hi Hbad Hbefore.
  pose proof (first_undecodable_at P _ argv i bad Hi Hbad Hbefore) as Hfirst.
  destruct (first_undecodable_some P _ _ _ Hfirst)
    as (pre & bad' & post & wpre & -> & Hlen & Hpre & Hbad').
  eexists. split; [now apply (main_decode_fail P env loc a Harg pre post bad' wpre)|].
  cbn [st_stderr st_trace]. repeat split; [lia | now rewrite Hlen |].
  intros argc argv_copy Hin.
  apply in_app_or in Hin. destruct Hin as [Hin|Hin].
  { now apply (script_calls_no_main P loc (unpack_root a env) argc argv_copy). }
  cbn [app In] in Hin. destruct Hin as [Hin|[Hin|Hin]]; try discriminate.
  now apply (decode_calls_no_main (pre ++ [bad']) argc argv_copy).
Qed.

Lemma decode_failure_names_ordinal_witness :
  exists s',
    main Sample.device Sample.argv_latin1 Sample.state = Exit 1 s' /\
    1 <> 0 /\
    st_stderr s'
    = "Fatal Python error: unable to decode the command line argument #"
      +:+ decimal (Z.of_nat 1 + 1) +:+ nl /\
    forall argc argv_copy, ~ In (EvMain argc argv_copy) (st_trace s').
Proof.
  apply (decode_failure_names_ordinal Sample.device Sample.env "C" "/data/app-root"
           Sample.argv_latin1 1 ("caf" +:+ String "233"%char EmptyString)).
  - reflexivity.
  - split; [reflexivity|]. repeat constructor.
  - reflexivity.
  - reflexivity.
  - intros j arg Hj Hat. assert (j = 0%nat) as -> by lia.
    injection Hat as <-. vm_compute. discriminate.
Defined.

(** ** C7 *)

(** C7.  When [ANDROID_ARGUMENT] is set, the resolver returns normally
    and leaves [ANDROID_UNPACK] equal to the application root if it was
    unset, and at its old value if it was set; running the resolver
    again in the state it left changes nothing.  Whatever else happens,
    an [ANDROID_UNPACK] that was set keeps its value. *)
Theorem resolver_defaults_unpack_root (s : State) :
  (forall a, st_env s !! "ANDROID_ARGUMENT" = Some a ->
     exists exePath s',
       environment_resolver s = Done exePath s' /\
       st_env s' !! "ANDROID_UNPACK"
       = match st_env s !! "ANDROID_UNPACK" with
         | None => Some a
         | Some u => Some u
         end /\
       environment_resolver s' = Done exePath s') /\
  (forall u, st_env s !! "ANDROID_UNPACK" = Some u ->
     st_env (final_state (environment_resolver s)) !! "ANDROID_UNPACK" = Some u).
Proof.
  split.
  - intros a Ha. exists (st_env s !! "EXEPATH"), (with_env (resolved_env a) s).
    split; [now apply resolver_run|]. split.
    + cbn [st_env with_env]. rewrite resolved_env_unpack. unfold unpack_root.
      now destruct (st_env s !! "ANDROID_UNPACK").
    + rewrite (resolver_run _ a) by (cbn [st_env with_env]; now rewrite resolved_env_argument).
      f_equal.
      * cbn [st_env with_env]. unfold resolved_env.
        destruct (st_env s !! "ANDROID_UNPACK"); destruct (st_env s !! "PYTHON_NAME");
          now rewrite !lookup_insert_ne by discriminate.
      * unfold with_env. cbn [st_env st_dlerror st_lib_open st_locale st_stderr st_trace].
        now rewrite resolved_env_idem.
  - intros u Hu. destruct (st_env s !! "ANDROID_ARGUMENT") as [a|] eqn:Ha.
    + rewrite (resolver_run s a Ha). cbn [final_state st_env with_env].
      rewrite resolved_env_unpack. unfold unpack_root. now rewrite Hu.
    + rewrite (resolver_fault s Ha). cbn [final_state st_env with_env].
      now rewrite lookup_insert_ne by discriminate.
Qed.

Lemma resolver_defaults_unpack_root_witness :
  (exists exePath s',
     environment_resolver Sample.state = Done exePath s' /\
     st_env s' !! "ANDROID_UNPACK" = Some "/data/app-root" /\
     environment_resolver s' = Done exePath s') /\
  st_env (final_state (environment_resolver (initial_state Sample.env_unpacked "C")))
    !! "ANDROID_UNPACK" = Some "/data/unpacked".
Proof.
  split.
  - apply (proj1 (resolver_defaults_unpack_root Sample.state) "/data/app-root").
    reflexivity.
  - apply (proj2 (resolver_defaults_unpack_root (initial_state Sample.env_unpacked "C"))
             "/data/unpacked").
    reflexivity.
Defined.

(** ** C8 *)

(** C8.  Whatever [PyRun_SimpleString] returns for each statement, the
    run is the one obtained when it returns something else: [main] never
    looks at the result.  In particular, once the library has loaded and
    the arguments decode, all six statements are submitted and the
    marshaling calls and [Py_Main] follow. *)
Theorem statement_results_ignored (P : Platform) (r : list Event -> string -> Z)
    (env : gmap string string) (loc a : string) (argv : list string) (ws : list wstring) :
  env !! "ANDROID_ARGUMENT" = Some a ->
  library_loads P (env !! "EXEPATH") ->
  decodes P (decoding_locale P loc) argv ws ->
  (forall s, main (with_run_simple_string r P) argv s = main P argv s) /\
  statements
    (st_trace (final_state (main (with_run_simple_string r P) argv (initial_state env loc))))
  = [import_statement; preamble_statement; add_prefix (unpack_root a env);
     add_site_packages_dir (unpack_root a env); add_lib_path (unpack_root a env);
     dot_statement] /\
  exists before,
    st_trace (final_state (main (with_run_simple_string r P) argv (initial_state env loc)))
    = before ++ [EvRunSimpleString dot_statement] ++ marshal_calls argv
      ++ EvMain (length argv) (marshaled ws) :: teardown_calls ws.
Proof.
  intros Harg Hload Hdec. split; [intros s; apply main_any_result|].
  rewrite main_any_result, (main_ok P env loc a Harg argv ws Hload Hdec).
  cbn [final_state st_trace]. split.
  - assert (Hlate : forall l, Forall (fun e => is_script_call e = false) l -> statements l = []).
    { induction 1 as [|e l He _ IH]; [reflexivity|]. now destruct e. }
    cbn [script_calls app statements]. rewrite Hlate; [reflexivity|].
    apply Forall_app. split; [apply marshal_calls_late|].
    constructor; [reflexivity | apply teardown_calls_late].
  - eexists (firstn 10 (script_calls P loc (unpack_root a env))). reflexivity.
Qed.

Lemma statement_results_ignored_witness :
  (forall s, main (with_run_simple_string (fun _ _ => 1) Sample.device) Sample.argv s
             = main Sample.device Sample.argv s) /\
  statements
    (st_trace (final_state
       (main (with_run_simple_string (fun _ _ => 1) Sample.device) Sample.argv Sample.state)))
  = [import_statement; preamble_statement; add_prefix (unpack_root "/data/app-root" Sample.env);
     add_site_packages_dir (unpack_root "/data/app-root" Sample.env);
     add_lib_path (unpack_root "/data/app-root" Sample.env);
     dot_statement] /\
  exists before,
    st_trace (final_state
      (main (with_run_simple_string (fun _ _ => 1) Sample.device) Sample.argv Sample.state))
    = before ++ [EvRunSimpleString dot_statement] ++ marshal_calls Sample.argv
      ++ EvMain (length Sample.argv) (marshaled Sample.wargv) :: teardown_calls Sample.wargv.
Proof.
  apply (statement_results_ignored Sample.device (fun _ _ => 1) Sample.env "C"
           "/data/app-root" Sample.argv Sample.wargv).
  - reflexivity.
  - split; [reflexivity|]. repeat constructor.
  - repeat constructor.
Defined.

(** ** C9 *)

(** C9, as the claim has it, fails for a long unpack root: the fifth
    statement is cut after 255 characters. *)
Lemma lib_path_statement_cut_for_deep_root :
  statements
    (st_trace (final_state
       (main Sample.device Sample.argv (initial_state Sample.deep_env "C")))) !! 4%nat
  = Some (truncate 255 Sample.deep_lib_statement) /\
  truncate 255 Sample.deep_lib_statement <> Sample.deep_lib_statement /\
  ~ In Sample.deep_lib_statement
      (statements
         (st_trace (final_state
            (main Sample.device Sample.argv (initial_state Sample.deep_env "C"))))).
Proof.
  split; [vm_compute; reflexivity|]. split.
  - intros Heq. apply (f_equal String.length) in Heq. vm_compute in Heq. discriminate Heq.
  - intros Hin. apply (in_map String.length) in Hin. vm_compute in Hin.
    repeat (destruct Hin as [Hin|Hin]; [discriminate Hin|]). exact Hin.
Qed.

(** C9, amended.  On every platform on which the library loads, and
    for every unpack root [U] for which the statement fits its buffer,
    the fifth statement submitted is
    [sys.path.append('U/lib/python3.8/site-packages')]. *)
Theorem lib_path_statement_python38 (P : Platform) (env : gmap string string)
    (loc a U : string) (argv : list string) :
  env !! "ANDROID_ARGUMENT" = Some a ->
  library_loads P (env !! "EXEPATH") ->
  unpack_root a env = U ->
  (String.length ("sys.path.append('" +:+ U +:+ "/lib/python3.8/site-packages')") <= 255)%nat ->
  statements (st_trace (final_state (main P argv (initial_state env loc)))) !! 4%nat
  = Some ("sys.path.append('" +:+ U +:+ "/lib/python3.8/site-packages')").
Proof.
  intros Harg Hload <- Hfit.
  destruct (main_trace_after_load P env loc a argv Harg Hload) as (rest & -> & _).
  cbn [script_calls app statements lookup list_lookup].
  unfold add_lib_path. now rewrite truncate_fits.
Qed.

Lemma lib_path_statement_python38_witness :
  statements (st_trace (final_state (main Sample.device Sample.argv Sample.state))) !! 4%nat
  = Some ("sys.path.append('" +:+ "/data/app-root" +:+ "/lib/python3.8/site-packages')").
Proof.
  apply (lib_path_statement_python38 Sample.device Sample.env "C" "/data/app-root"
           "/data/app-root" Sample.argv).
  - reflexivity.
  - split; [reflexivity|]. repeat constructor.
  - reflexivity.
  - vm_compute. lia.
Defined.

(** ** C10 *)

(** C10.  Whatever the unpack root [u], the path-and-script phase
    returns normally without writing to standard error, and the strings
    it passes on are the five buffers.  Each buffer holds at most 255
    characters: the first 255 of the formatted result.  It equals the
    formatted result exactly when that result has at most 255
    characters, so the search path and the bundle statement are the
    intended ones only when these fit. *)
Theorem buffers_hold_255_characters (P : Platform) (s : State) (u : string) :
  st_env s !! "ANDROID_UNPACK" = Some u ->
  (exists s',
     path_and_script P s = Done tt s' /\
     st_stderr s' = st_stderr s /\
     st_trace s' = st_trace s ++ script_calls P (st_locale s) u) /\
  Forall (fun '(buffer, formatted) =>
            (String.length buffer <= 255)%nat /\
            buffer = truncate 255 formatted /\
            (buffer = formatted <-> (String.length formatted <= 255)%nat))
    [(python_bundle_dir u, bundle_dir_fmt u);
     (paths u, paths_fmt (python_bundle_dir u));
     (add_prefix u, add_prefix_fmt u);
     (add_site_packages_dir u, add_site_packages_dir_fmt (python_bundle_dir u));
     (add_lib_path u, add_lib_path_fmt u)] /\
  (paths u = paths_fmt (bundle_dir_fmt u)
   <-> (String.length (paths_fmt (bundle_dir_fmt u)) <= 255)%nat) /\
  (add_site_packages_dir u = add_site_packages_dir_fmt (bundle_dir_fmt u)
   <-> (String.length (add_site_packages_dir_fmt (bundle_dir_fmt u)) <= 255)%nat).
Proof.
  intros Hu. split; [|split; [|split]].
  - eexists. split; [apply (path_and_script_run P s u Hu)|]. split; reflexivity.
  - assert (Hcut : forall full,
               (String.length (truncate 255 full) <= 255)%nat /\
               truncate 255 full = truncate 255 full /\
               (truncate 255 full = full <-> (String.length full <= 255)%nat)).
    { intros full. split; [rewrite length_truncate; lia|].
      split; [reflexivity | apply truncate_eq_iff]. }
    repeat (constructor; [exact (Hcut _)|]). constructor.
  - split; [|apply paths_fits].
    intros Heq. rewrite <- Heq. unfold paths. rewrite length_truncate. lia.
  - split; [|apply add_site_packages_dir_fits].
    intros Heq. rewrite <- Heq. unfold add_site_packages_dir. rewrite length_truncate. lia.
Qed.

Lemma buffers_hold_255_characters_witness :
  (exists s',
     path_and_script Sample.device Sample.deep_state = Done tt s' /\
     st_stderr s' = st_stderr Sample.deep_state /\
     st_trace s' = st_trace Sample.deep_state ++ script_calls Sample.device (st_locale Sample.deep_state) Sample.deep_root) /\
  Forall (fun '(buffer, formatted) =>
            (String.length buffer <= 255)%nat /\
            buffer = truncate 255 formatted /\
            (buffer = formatted <-> (String.length formatted <= 255)%nat))
    [(python_bundle_dir Sample.deep_root, bundle_dir_fmt Sample.deep_root);
     (paths Sample.deep_root, paths_fmt (python_bundle_dir Sample.deep_root));
     (add_prefix Sample.deep_root, add_prefix_fmt Sample.deep_root);
     (add_site_packages_dir Sample.deep_root, add_site_packages_dir_fmt (python_bundle_dir Sample.deep_root));
     (add_lib_path Sample.deep_root, add_lib_path_fmt Sample.deep_root)] /\
  (paths Sample.deep_root = paths_fmt (bundle_dir_fmt Sample.deep_root)
   <-> (String.length (paths_fmt (bundle_dir_fmt Sample.deep_root)) <= 255)%nat) /\
  (add_site_packages_dir Sample.deep_root = add_site_packages_dir_fmt (bundle_dir_fmt Sample.deep_root)
   <-> (String.length (add_site_packages_dir_fmt (bundle_dir_fmt Sample.deep_root)) <= 255)%nat).
Proof.
  apply (buffers_hold_255_characters Sample.device Sample.deep_state Sample.deep_root).
  reflexivity.
Defined.

(** * Further properties of [main] *)

(** ** Every run, by kind *)

Lemma main_runs (P : Platform) (env : gmap string string) (loc a : string)
    (argv : list string) :
  env !! "ANDROID_ARGUMENT" = Some a ->
  (exists msg,
     dl_open P (env !! "EXEPATH") = DlFail msg /\
     main P argv (initial_state env loc)
     = Exit 1 (mkState (resolved_env a env) None false loc msg []))
  \/
  (exists msg,
     dl_open P (env !! "EXEPATH") = DlOk /\
     first_unresolved P entry_points = Some msg /\
     main P argv (initial_state env loc)
     = Exit 1 (mkState (resolved_env a env) None true loc msg []))
  \/
  (exists pre bad post wpre,
     library_loads P (env !! "EXEPATH") /\
     argv = pre ++ bad :: post /\
     decodes P (decoding_locale P loc) pre wpre /\
     decode_locale P (decoding_locale P loc) bad = None /\
     main P argv (initial_state env loc)
     = Exit 1 (mkState (resolved_env a env) None true (decoding_locale P loc)
                 (decode_diagnostic (Z.of_nat (length pre) + 1))
                 (script_calls P loc (unpack_root a env)
                  ++ [EvRawMalloc (length argv + 1); EvRawMalloc (length argv + 1)]
                  ++ (EvDecodeLocale <$> (pre ++ [bad])))))
  \/
  (exists ws,
     library_loads P (env !! "EXEPATH") /\
     decodes P (decoding_locale P loc) argv ws /\
     main P argv (initial_state env loc)
     = Done (py_main P (script_calls P loc (unpack_root a env) ++ marshal_calls argv)
               (length argv) (marshaled ws))
            (mkState (resolved_env a env) None false (restored_locale P loc) EmptyString
               (script_calls P loc (unpack_root a env) ++ marshal_calls argv
                ++ EvMain (length argv) (marshaled ws) :: teardown_calls ws))).
Proof.
  intros Harg.
  destruct (library_loads_or_not P (env !! "EXEPATH"))
    as [Hload | [[msg Hopen] | [Hopen [msg Hfirst]]]].
  - destruct (first_undecodable P (decoding_locale P loc) argv) as [i|] eqn:Hfirst.
    + destruct (first_undecodable_some P _ _ _ Hfirst)
        as (pre & bad & post & wpre & -> & _ & Hpre & Hbad).
      right; right; left. exists pre, bad, post, wpre.
      split; [exact Hload|]. split; [reflexivity|]. split; [exact Hpre|].
      split; [exact Hbad|].
      now apply (main_decode_fail P env loc a Harg pre post bad wpre).
    + destruct (first_undecodable_none P _ _ Hfirst) as [ws Hdec].
      right; right; right. exists ws.
      split; [exact Hload|]. split; [exact Hdec|]. now apply main_ok.
  - left. exists msg. split; [assumption|]. now apply main_open_fail.
  - right; left. exists msg.
    split; [exact Hopen|]. split; [exact Hfirst|]. now apply main_symbol_fail.
Qed.

Lemma main_final_env (P : Platform) (env : gmap string string) (loc a : string)
    (argv : list string) :
  env !! "ANDROID_ARGUMENT" = Some a ->
  st_env (final_state (main P argv (initial_state env loc))) = resolved_env a env.
Proof.
  intros Harg.
  destruct (main_runs P env loc a argv Harg)
    as [(msg & _ & ->) | [(msg & _ & _ & ->) |
        [(pre & bad & post & wpre & _ & _ & _ & _ & ->) | (ws & _ & _ & ->)]]];
    reflexivity.
Qed.

(** ** Telling calls apart in a trace *)

Lemma statements_late (l : list Event) :
  Forall (fun e => is_script_call e = false) l -> statements l = [].
Proof. induction 1 as [|e l He _ IH]; [reflexivity|]. now destruct e. Qed.

Lemma set_path_args_late (l : list Event) :
  Forall (fun e => is_script_call e = false) l -> set_path_args l = [].
Proof. induction 1 as [|e l He _ IH]; [reflexivity|]. now destruct e. Qed.

Lemma freed_blocks_app (l k : list Event) :
  freed_blocks (l ++ k) = freed_blocks l ++ freed_blocks k.
Proof.
  induction l as [|e l IH]; [reflexivity|].
  destruct e; simpl; now rewrite ?IH.
Qed.

Lemma malloc_sizes_app (l k : list Event) :
  malloc_sizes (l ++ k) = malloc_sizes l ++ malloc_sizes k.
Proof.
  induction l as [|e l IH]; [reflexivity|].
  destruct e; simpl; now rewrite ?IH.
Qed.

Lemma decode_args_app (l k : list Event) :
  decode_args (l ++ k) = decode_args l ++ decode_args k.
Proof.
  induction l as [|e l IH]; [reflexivity|].
  destruct e; simpl; now rewrite ?IH.
Qed.

Lemma decode_args_decodes (argv : list string) :
  decode_args (EvDecodeLocale <$> argv) = argv.
Proof. induction argv as [|arg argv IH]; [reflexivity|]. simpl. f_equal. exact IH. Qed.

Lemma freed_blocks_decodes (argv : list string) :
  freed_blocks (EvDecodeLocale <$> argv) = [].
Proof. now induction argv. Qed.

Lemma malloc_sizes_decodes (argv : list string) :
  malloc_sizes (EvDecodeLocale <$> argv) = [].
Proof. now induction argv. Qed.

Lemma freed_blocks_teardown (ws : list wstring) :
  freed_blocks (teardown_calls ws)
  = ((fun w => BString (Ptr w)) <$> ws) ++ [BArgvCopy; BArgvCopy2].
Proof.
  unfold teardown_calls. rewrite freed_blocks_app.
  f_equal. induction ws as [|w ws IH]; [reflexivity|]. simpl. f_equal. exact IH.
Qed.

Lemma malloc_sizes_teardown (ws : list wstring) :
  malloc_sizes (teardown_calls ws) = [].
Proof.
  unfold teardown_calls. rewrite malloc_sizes_app.
  induction ws as [|w ws IH]; [reflexivity|]. exact IH.
Qed.

Lemma decode_args_teardown (ws : list wstring) :
  decode_args (teardown_calls ws) = [].
Proof.
  unfold teardown_calls. rewrite decode_args_app.
  induction ws as [|w ws IH]; [reflexivity|]. exact IH.
Qed.

Lemma teardown_calls_no_main (ws : list wstring) (argc : nat) (av : list cell) :
  ~ In (EvMain argc av) (teardown_calls ws).
Proof.
  unfold teardown_calls. intros Hin. apply in_app_or in Hin. destruct Hin as [Hin|Hin].
  - induction ws as [|w ws IH]; simpl in Hin; [tauto|].
    destruct Hin as [Hin|Hin]; [discriminate | auto].
  - simpl in Hin. intuition discriminate.
Qed.

Lemma marshal_calls_no_main (argv : list string) (argc : nat) (av : list cell) :
  ~ In (EvMain argc av) (marshal_calls argv).
Proof.
  unfold marshal_calls. simpl. intros [Hin|[Hin|Hin]]; try discriminate.
  now apply (decode_calls_no_main argv argc av).
Qed.

(** A trace with a single [Py_Main] call splits around it in one way. *)
Lemma main_call_split (l1 l2 l1' l2' : list Event) (n n' : nat) (av av' : list cell) :
  (forall argc argv_copy, ~ In (EvMain argc argv_copy) l1) ->
  (forall argc argv_copy, ~ In (EvMain argc argv_copy) l2) ->
  l1 ++ EvMain n av :: l2 = l1' ++ EvMain n' av' :: l2' ->
  l1' = l1 /\ n' = n /\ av' = av /\ l2' = l2.
Proof.
  revert l1'. induction l1 as [|e l1 IH]; intros l1' Hno1 Hno2 Heq.
  - destruct l1' as [|e' l1']; simpl in Heq.
    + injection Heq as -> -> ->. auto.
    + injection Heq as <- ->. exfalso. apply (Hno2 n' av').
      apply in_or_app. right. now left.
  - destruct l1' as [|e' l1']; simpl in Heq.
    + injection Heq as -> _. exfalso. apply (Hno1 n' av'). now left.
    + injection Heq as <- Heq.
      destruct (IH l1') as (-> & -> & -> & ->); auto.
      intros argc argv_copy Hin. apply (Hno1 argc argv_copy). now right.
Qed.

(** ** More on strings *)

Lemma truncate_append_long (n : nat) (s t : string) :
  (n <= String.length s)%nat -> truncate n (s +:+ t) = truncate n s.
Proof.
  revert s; induction n as [|n IH]; intros s Hlen; [now destruct s|].
  destruct s as [|c s]; simpl in Hlen; [lia|].
  change (String c (truncate n (s +:+ t)) = String c (truncate n s)).
  f_equal. apply IH. lia.
Qed.

Lemma truncate_truncate (n : nat) (s : string) :
  truncate n (truncate n s) = truncate n s.
Proof. apply truncate_fits. rewrite length_truncate. lia. Qed.

Lemma append_inj_l (s t t' : string) : s +:+ t = s +:+ t' -> t = t'.
Proof.
  induction s as [|c s IH]; intros Heq; [exact Heq|].
  apply IH. now injection Heq.
Qed.

Lemma append_inj_r (t s s' : string) : s +:+ t = s' +:+ t -> s = s'.
Proof.
  revert s'; induction s as [|c s IH]; intros s' Heq.
  - apply (f_equal String.length) in Heq. rewrite !length_append in Heq.
    destruct s'; [reflexivity | cbn [String.length] in Heq; lia].
  - destruct s' as [|c' s'].
    + apply (f_equal String.length) in Heq. rewrite !length_append in Heq.
      cbn [String.length] in Heq. lia.
    + injection Heq as -> Heq. f_equal. now apply IH.
Qed.

Lemma parse_decimal_decimal (z : Z) : parse_decimal (decimal z) = Some z.
Proof.
  unfold parse_decimal, decimal. rewrite NilZero.isi.
  - simpl. f_equal. apply DecimalZ.of_to.
  - destruct z as [|p|p]; try discriminate.
    simpl. intros [= Hnil]. revert Hnil. apply DecimalPos.Unsigned.to_uint_nonnil.
  - destruct z as [|p|p]; try discriminate.
    simpl. intros [= Hnil]. revert Hnil. apply DecimalPos.Unsigned.to_uint_nonnil.
Qed.

Lemma decimal_inj (i j : Z) : decimal i = decimal j -> i = j.
Proof.
  intros Heq. apply (f_equal parse_decimal) in Heq.
  rewrite !parse_decimal_decimal in Heq. congruence.
Qed.

(** ** More on the resolver *)

Lemma resolved_env_bootstrap (a : string) (env : gmap string string) :
  resolved_env a env !! "P4A_BOOTSTRAP" = Some "SDL2".
Proof.
  unfold resolved_env.
  destruct (env !! "ANDROID_UNPACK"); destruct (env !! "PYTHON_NAME");
    rewrite ?lookup_insert_ne by discriminate; apply lookup_insert_eq.
Qed.

Lemma resolved_env_app_path (a : string) (env : gmap string string) :
  resolved_env a env !! "ANDROID_APP_PATH" = Some a.
Proof.
  unfold resolved_env.
  destruct (env !! "ANDROID_UNPACK"); destruct (env !! "PYTHON_NAME");
    rewrite ?lookup_insert_ne by discriminate; apply lookup_insert_eq.
Qed.

Lemma resolved_env_python_name (a : string) (env : gmap string string) :
  resolved_env a env !! "PYTHON_NAME" = Some (default "python" (env !! "PYTHON_NAME")).
Proof.
  unfold resolved_env.
  destruct (env !! "ANDROID_UNPACK"); destruct (env !! "PYTHON_NAME") eqn:Hn;
    rewrite ?lookup_insert_eq, ?lookup_insert_ne by discriminate; auto.
Qed.

Lemma resolved_env_other (a k : string) (env : gmap string string) :
  k ∉ exported_names -> resolved_env a env !! k = env !! k.
Proof.
  unfold exported_names. intros Hk.
  apply not_elem_of_cons in Hk as [H1 Hk]. apply not_elem_of_cons in Hk as [H2 Hk].
  apply not_elem_of_cons in Hk as [H3 Hk]. apply not_elem_of_cons in Hk as [H4 _].
  unfold resolved_env.
  destruct (env !! "ANDROID_UNPACK"); destruct (env !! "PYTHON_NAME");
    now rewrite !lookup_insert_ne by congruence.
Qed.

Lemma first_unresolved_at (P : Platform) (pre post : list string) (name msg : string) :
  Forall (fun n => dl_sym P n = DlOk) pre ->
  dl_sym P name = DlFail msg ->
  first_unresolved P (pre ++ name :: post) = Some msg.
Proof.
  intros Hpre Hname. induction Hpre as [|n pre Hn _ IH]; simpl.
  - now rewrite Hname.
  - now rewrite Hn.
Qed.

Lemma paths_intact_iff (u : string) :
  paths u = paths_fmt (bundle_dir_fmt u) <-> (String.length u <= 102)%nat.
Proof.
  split.
  - intros Heq. apply (f_equal String.length) in Heq.
    unfold paths, python_bundle_dir in Heq.
    rewrite length_truncate, !length_paths_fmt, length_truncate,
      length_bundle_dir_fmt in Heq.
    lia.
  - intros Hlen. apply paths_fits. rewrite length_paths_fmt, length_bundle_dir_fmt. lia.
Qed.

Lemma add_site_packages_dir_intact_iff (u : string) :
  add_site_packages_dir u = add_site_packages_dir_fmt (bundle_dir_fmt u)
  <-> (String.length u <= 207)%nat.
Proof.
  split.
  - intros Heq. apply (f_equal String.length) in Heq.
    unfold add_site_packages_dir, python_bundle_dir in Heq.
    rewrite length_truncate, !length_add_site_packages_dir_fmt, length_truncate,
      length_bundle_dir_fmt in Heq.
    lia.
  - intros Hlen. apply add_site_packages_dir_fits.
    rewrite length_add_site_packages_dir_fmt, length_bundle_dir_fmt. lia.
Qed.

Lemma add_lib_path_intact_iff (u : string) :
  add_lib_path u = add_lib_path_fmt u <-> (String.length u <= 208)%nat.
Proof.
  unfold add_lib_path. rewrite truncate_eq_iff, length_add_lib_path_fmt. lia.
Qed.

Lemma add_prefix_intact_iff (u : string) :
  add_prefix u = add_prefix_fmt u <-> (String.length u <= 240)%nat.
Proof.
  unfold add_prefix. rewrite truncate_eq_iff, length_add_prefix_fmt. lia.
Qed.

Lemma paths_of_long_root (u : string) :
  (255 <= String.length u)%nat -> paths u = truncate 255 u.
Proof.
  intros Hlen.
  assert (Hb : python_bundle_dir u = truncate 255 u).
  { unfold python_bundle_dir, bundle_dir_fmt. now apply truncate_append_long. }
  unfold paths, paths_fmt. rewrite Hb, truncate_append_long, truncate_truncate.
  - reflexivity.
  - rewrite length_truncate. lia.
Qed.

(** ** The environment *)

(** X1.  With [ANDROID_ARGUMENT] set to [a], the resolver returns the
    value of [EXEPATH] and leaves [P4A_BOOTSTRAP] at [SDL2] and
    [ANDROID_APP_PATH] at [a], whatever they held before, and
    [PYTHON_NAME] at its old value, or at [python] if it had none.
    Nothing but the environment changes. *)
Theorem resolver_exports (s : State) (a : string) :
  st_env s !! "ANDROID_ARGUMENT" = Some a ->
  exists s',
    environment_resolver s = Done (st_env s !! "EXEPATH") s' /\
    st_env s' !! "P4A_BOOTSTRAP" = Some "SDL2" /\
    st_env s' !! "ANDROID_APP_PATH" = Some a /\
    st_env s' !! "PYTHON_NAME" = Some (default "python" (st_env s !! "PYTHON_NAME")) /\
    st_env s' !! "ANDROID_ARGUMENT" = Some a /\
    (st_dlerror s', st_lib_open s', st_locale s', st_stderr s', st_trace s')
    = (st_dlerror s, st_lib_open s, st_locale s, st_stderr s, st_trace s).
Proof.
  intros Ha. exists (with_env (resolved_env a) s).
  split; [now apply resolver_run|]. cbn [st_env with_env].
  rewrite resolved_env_bootstrap, resolved_env_app_path, resolved_env_python_name,
    resolved_env_argument.
  repeat split; auto.
Qed.

Lemma resolver_exports_witness :
  exists s',
    environment_resolver (initial_state Sample.env_with_home "C")
    = Done (Sample.env_with_home !! "EXEPATH") s' /\
    st_env s' !! "P4A_BOOTSTRAP" = Some "SDL2" /\
    st_env s' !! "ANDROID_APP_PATH" = Some "/data/app-root" /\
    st_env s' !! "PYTHON_NAME"
    = Some (default "python" (Sample.env_with_home !! "PYTHON_NAME")) /\
    st_env s' !! "ANDROID_ARGUMENT" = Some "/data/app-root" /\
    (st_dlerror s', st_lib_open s', st_locale s', st_stderr s', st_trace s')
    = (None, false, "C", EmptyString, []).
Proof.
  apply (resolver_exports (initial_state Sample.env_with_home "C") "/data/app-root").
  reflexivity.
Defined.

(** X2.  Whatever the platform, the environment and the command line,
    and however the run ends, a variable other than the four [main]
    exports has at the end the value it had at the start. *)
Theorem main_keeps_other_variables (P : Platform) (env : gmap string string)
    (loc : string) (argv : list string) (k : string) :
  k ∉ exported_names ->
  st_env (final_state (main P argv (initial_state env loc))) !! k = env !! k.
Proof.
  intros Hk. destruct (env !! "ANDROID_ARGUMENT") as [a|] eqn:Harg.
  - rewrite (main_final_env P env loc a argv Harg). now apply resolved_env_other.
  - rewrite (main_fault P env loc argv Harg). cbn [final_state st_env].
    apply lookup_insert_ne. intros <-. apply Hk. unfold exported_names. now left.
Qed.

Lemma main_keeps_other_variables_witness :
  st_env (final_state (main Sample.device Sample.argv
                         (initial_state Sample.env_with_home "C"))) !! "HOME"
  = Sample.env_with_home !! "HOME".
Proof.
  apply (main_keeps_other_variables Sample.device Sample.env_with_home "C" Sample.argv "HOME").
  unfold exported_names. intros Hin.
  repeat (apply elem_of_cons in Hin as [Hin|Hin]; [discriminate Hin|]).
  now apply elem_of_nil in Hin.
Defined.


(** X4.  Once the resolver has run, running [main] in the state it
    left gives the run [main] gives in the state before: the exported
    environment, inherited by a child, leads to the same bootstrap. *)
Theorem main_after_resolver (P : Platform) (argv : list string) (s s' : State)
    (exePath : option string) :
  environment_resolver s = Done exePath s' ->
  main P argv s' = main P argv s.
Proof.
  intros Hrun. destruct (st_env s !! "ANDROID_ARGUMENT") as [a|] eqn:Harg.
  - rewrite (resolver_run s a Harg) in Hrun. injection Hrun as <- <-.
    assert (Hagain : environment_resolver (with_env (resolved_env a) s)
                     = Done (st_env s !! "EXEPATH") (with_env (resolved_env a) s)).
    { rewrite (resolver_run _ a) by (cbn [st_env with_env]; now rewrite resolved_env_argument).
      f_equal.
      - cbn [st_env with_env]. apply resolved_env_other.
        unfold exported_names. intros Hin.
        repeat (apply elem_of_cons in Hin as [Hin|Hin]; [discriminate Hin|]).
        now apply elem_of_nil in Hin.
      - unfold with_env. cbn [st_env st_dlerror st_lib_open st_locale st_stderr st_trace].
        now rewrite resolved_env_idem. }
    unfold main.
    run_with Hagain.
    run_with (resolver_run s a Harg).
    reflexivity.
  - rewrite (resolver_fault s Harg) in Hrun. discriminate Hrun.
Qed.

Lemma main_after_resolver_witness :
  main Sample.device Sample.argv
    (mkState (resolved_env "/data/app-root" Sample.env) None false "C" EmptyString [])
  = main Sample.device Sample.argv Sample.state.
Proof.
  apply (main_after_resolver Sample.device Sample.argv Sample.state _
           (Sample.env !! "EXEPATH")).
  reflexivity.
Defined.

(** ** The loader *)

(** X5.  If the library opens and the symbol [name] is the first of the
    nine, in binding order, that does not resolve, standard error
    receives exactly the loader's message for [name], the exit status
    is 1, no runtime call has been made, and the library has not been
    closed. *)
Theorem first_unresolved_symbol_reported (P : Platform) (env : gmap string string)
    (loc a : string) (argv pre post : list string) (name msg : string) :
  env !! "ANDROID_ARGUMENT" = Some a ->
  dl_open P (env !! "EXEPATH") = DlOk ->
  entry_points = pre ++ name :: post ->
  Forall (fun n => dl_sym P n = DlOk) pre ->
  dl_sym P name = DlFail msg ->
  exists s',
    main P argv (initial_state env loc) = Exit 1 s' /\
    st_stderr s' = msg /\
    st_trace s' = [] /\
    st_lib_open s' = true.
Proof.
  intros Harg Hopen Hsplit Hpre Hname.
  eexists. split.
  - apply (main_symbol_fail P env loc a Harg argv msg Hopen).
    rewrite Hsplit. now apply first_unresolved_at.
  - repeat split.
Qed.

Lemma first_unresolved_symbol_reported_witness :
  exists s',
    main Sample.stripped_device Sample.argv Sample.state = Exit 1 s' /\
    st_stderr s' = "undefined symbol: Py_Main" /\
    st_trace s' = [] /\
    st_lib_open s' = true.
Proof.
  apply (first_unresolved_symbol_reported Sample.stripped_device Sample.env "C"
           "/data/app-root" Sample.argv
           ["Py_SetProgramName"; "Py_DecodeLocale"; "Py_SetPath"; "Py_Initialize";
            "PyEval_InitThreads"; "PyRun_SimpleString"; "PyMem_RawMalloc"; "PyMem_RawFree"]
           [] "Py_Main").
  - reflexivity.
  - reflexivity.
  - reflexivity.
  - repeat constructor.
  - reflexivity.
Defined.

(** X6.  If [dlopen] fails, also when [EXEPATH] is unset and the null
    path is what fails to open, standard error receives exactly the
    loader's message with nothing added, the exit status is 1, no
    symbol has been bound, no runtime call made, and no message is left
    pending in [dlerror]. *)
Theorem dlopen_failure_reported (P : Platform) (env : gmap string string)
    (loc a : string) (argv : list string) (msg : string) :
  env !! "ANDROID_ARGUMENT" = Some a ->
  dl_open P (env !! "EXEPATH") = DlFail msg ->
  exists s',
    main P argv (initial_state env loc) = Exit 1 s' /\
    st_stderr s' = msg /\
    st_trace s' = [] /\
    st_lib_open s' = false /\
    st_dlerror s' = None.
Proof.
  intros Harg Hopen. eexists. split.
  - now apply (main_open_fail P env loc a Harg argv msg).
  - repeat split.
Qed.

Lemma dlopen_failure_reported_witness :
  exists s',
    main Sample.device Sample.argv (initial_state Sample.env_no_library "C") = Exit 1 s' /\
    st_stderr s' = "dlopen failed: library not found" /\
    st_trace s' = [] /\
    st_lib_open s' = false /\
    st_dlerror s' = None.
Proof.
  apply (dlopen_failure_reported Sample.device Sample.env_no_library "C" "/data/app-root").
  - reflexivity.
  - reflexivity.
Defined.

(** ** The calls into the runtime *)

(** X7.  Whenever [Py_Main] is called, it is the only such call of the
    run; what came before is exactly the program name, the search path,
    the two initialisations, the six statements and the decoding of
    every argument; it receives [argc] and the terminated array of the
    decoded arguments; and what follows is exactly the teardown. *)
Theorem main_call_protocol (P : Platform) (env : gmap string string) (loc : string)
    (argv : list string) (before after : list Event) (argc : nat) (argv_copy : list cell) :
  st_trace (final_state (main P argv (initial_state env loc)))
  = before ++ EvMain argc argv_copy :: after ->
  exists a ws,
    env !! "ANDROID_ARGUMENT" = Some a /\
    decodes P (decoding_locale P loc) argv ws /\
    before = script_calls P loc (unpack_root a env) ++ marshal_calls argv /\
    argc = length argv /\
    argv_copy = marshaled ws /\
    after = teardown_calls ws.
Proof.
  intros Htrace.
  assert (Hin : In (EvMain argc argv_copy)
                  (st_trace (final_state (main P argv (initial_state env loc))))).
  { rewrite Htrace. apply in_or_app. right. now left. }
  destruct (env !! "ANDROID_ARGUMENT") as [a|] eqn:Harg.
  - destruct (main_runs P env loc a argv Harg)
      as [(msg & _ & Hrun) | [(msg & _ & _ & Hrun) |
          [(pre & bad & post & wpre & _ & _ & _ & _ & Hrun) | (ws & _ & Hdec & Hrun)]]];
      rewrite Hrun in Hin, Htrace; cbn [final_state st_trace] in Hin, Htrace.
    + destruct Hin.
    + destruct Hin.
    + exfalso. apply in_app_or in Hin. destruct Hin as [Hin|Hin].
      { now apply (script_calls_no_main P loc (unpack_root a env) argc argv_copy). }
      cbn [app In] in Hin. destruct Hin as [Hin|[Hin|Hin]]; try discriminate.
      now apply (decode_calls_no_main (pre ++ [bad]) argc argv_copy).
    + exists a, ws. rewrite app_assoc in Htrace.
      assert (Hno1 : forall n av,
                 ~ In (EvMain n av)
                     (script_calls P loc (unpack_root a env) ++ marshal_calls argv)).
      { intros n av Hn. apply in_app_or in Hn. destruct Hn as [Hn|Hn].
        - now apply (script_calls_no_main P loc (unpack_root a env) n av).
        - now apply (marshal_calls_no_main argv n av). }
      assert (Hno2 : forall n av, ~ In (EvMain n av) (teardown_calls ws)).
      { intros n av. apply teardown_calls_no_main. }
      destruct (main_call_split _ _ _ _ _ _ _ _ Hno1 Hno2 Htrace) as (-> & -> & -> & ->).
      repeat split; auto.
  - rewrite (main_fault P env loc argv Harg) in Hin. destruct Hin.
Qed.

Lemma main_call_protocol_witness :
  exists a ws,
    Sample.env !! "ANDROID_ARGUMENT" = Some a /\
    decodes Sample.device (decoding_locale Sample.device "C") Sample.argv ws /\
    script_calls Sample.device "C" "/data/app-root" ++ marshal_calls Sample.argv
    = script_calls Sample.device "C" (unpack_root a Sample.env) ++ marshal_calls Sample.argv /\
    3%nat = length Sample.argv /\
    marshaled Sample.wargv = marshaled ws /\
    teardown_calls Sample.wargv = teardown_calls ws.
Proof.
  apply (main_call_protocol Sample.device Sample.env "C" Sample.argv
           (script_calls Sample.device "C" "/data/app-root" ++ marshal_calls Sample.argv)
           (teardown_calls Sample.wargv) 3 (marshaled Sample.wargv)).
  vm_compute. reflexivity.
Defined.

(** X8.  In a run that completes, [PyMem_RawMalloc] is called twice,
    each time for [argc + 1] cells; the decoder is given the search
    path and then each argument once, in order; [PyMem_RawFree] is
    given each decoded argument once, in order, then the two arrays,
    and nothing else, so the decoded search path is never released; the
    library is closed; and nothing has been written to standard error. *)
Theorem complete_run_releases_arguments (P : Platform) (env : gmap string string)
    (loc a : string) (argv : list string) (ws : list wstring) :
  env !! "ANDROID_ARGUMENT" = Some a ->
  library_loads P (env !! "EXEPATH") ->
  decodes P (decoding_locale P loc) argv ws ->
  exists r s',
    main P argv (initial_state env loc) = Done r s' /\
    malloc_sizes (st_trace s') = [(length argv + 1)%nat; (length argv + 1)%nat] /\
    decode_args (st_trace s') = paths (unpack_root a env) :: argv /\
    freed_blocks (st_trace s')
    = ((fun w => BString (Ptr w)) <$> ws) ++ [BArgvCopy; BArgvCopy2] /\
    st_lib_open s' = false /\
    st_stderr s' = EmptyString.
Proof.
  intros Harg Hload Hdec. eexists; eexists.
  split; [now apply (main_ok P env loc a Harg argv ws)|].
  cbn [st_trace st_lib_open st_stderr]. unfold marshal_calls.
  repeat split.
  - rewrite !malloc_sizes_app. cbn [script_calls malloc_sizes app].
    now rewrite malloc_sizes_decodes, malloc_sizes_teardown.
  - rewrite !decode_args_app. cbn [script_calls decode_args app].
    now rewrite decode_args_decodes, decode_args_teardown, app_nil_r.
  - rewrite !freed_blocks_app. cbn [script_calls freed_blocks app].
    now rewrite freed_blocks_decodes, freed_blocks_teardown.
Qed.

Lemma complete_run_releases_arguments_witness :
  exists r s',
    main Sample.device Sample.argv Sample.state = Done r s' /\
    malloc_sizes (st_trace s') = [(length Sample.argv + 1)%nat; (length Sample.argv + 1)%nat] /\
    decode_args (st_trace s') = paths (unpack_root "/data/app-root" Sample.env) :: Sample.argv /\
    freed_blocks (st_trace s')
    = ((fun w => BString (Ptr w)) <$> Sample.wargv) ++ [BArgvCopy; BArgvCopy2] /\
    st_lib_open s' = false /\
    st_stderr s' = EmptyString.
Proof.
  apply (complete_run_releases_arguments Sample.device Sample.env "C" "/data/app-root"
           Sample.argv Sample.wargv).
  - reflexivity.
  - split; [reflexivity|]. repeat constructor.
  - repeat constructor.
Defined.

(** X9.  When the decoder rejects an argument, the arguments after it
    are never given to the decoder, nothing is handed to
    [PyMem_RawFree] -- the arrays and the arguments decoded so far stay
    allocated -- and the library is left open. *)
Theorem decode_failure_stops_at_once (P : Platform) (env : gmap string string)
    (loc a : string) (pre post : list string) (bad : string) (wpre : list wstring) :
  env !! "ANDROID_ARGUMENT" = Some a ->
  library_loads P (env !! "EXEPATH") ->
  decodes P (decoding_locale P loc) pre wpre ->
  decode_locale P (decoding_locale P loc) bad = None ->
  exists s',
    main P (pre ++ bad :: post) (initial_state env loc) = Exit 1 s' /\
    decode_args (st_trace s') = paths (unpack_root a env) :: pre ++ [bad] /\
    malloc_sizes (st_trace s')
    = [(length (pre ++ bad :: post) + 1)%nat; (length (pre ++ bad :: post) + 1)%nat] /\
    freed_blocks (st_trace s') = [] /\
    st_lib_open s' = true.
Proof.
  intros Harg Hload Hpre Hbad. eexists.
  split; [now apply (main_decode_fail P env loc a Harg pre post bad wpre)|].
  cbn [st_trace st_lib_open]. repeat split.
  - rewrite !decode_args_app. cbn [script_calls decode_args app].
    now rewrite decode_args_decodes.
  - rewrite !malloc_sizes_app. cbn [script_calls malloc_sizes app].
    now rewrite malloc_sizes_decodes.
  - rewrite !freed_blocks_app. cbn [script_calls freed_blocks app].
    now rewrite freed_blocks_decodes.
Qed.

Lemma decode_failure_stops_at_once_witness :
  exists s',
    main Sample.device Sample.argv_latin1 Sample.state = Exit 1 s' /\
    decode_args (st_trace s')
    = paths (unpack_root "/data/app-root" Sample.env)
      :: ["python"] ++ ["caf" +:+ String "233"%char EmptyString] /\
    malloc_sizes (st_trace s') = [(length Sample.argv_latin1 + 1)%nat;
                                  (length Sample.argv_latin1 + 1)%nat] /\
    freed_blocks (st_trace s') = [] /\
    st_lib_open s' = true.
Proof.
  apply (decode_failure_stops_at_once Sample.device Sample.env "C" "/data/app-root"
           ["python"] ["-v"] ("caf" +:+ String "233"%char EmptyString)
           [[112; 121; 116; 104; 111; 110]%N]).
  - reflexivity.
  - split; [reflexivity|]. repeat constructor.
  - repeat constructor.
  - reflexivity.
Defined.

(** ** The search path and the statements *)

(** X10.  The result of decoding the search path is not checked: when
    the decoder rejects it, [Py_SetPath] is called once, with the null
    pointer, all six statements are still submitted, and the run goes
    on to return what [Py_Main] returns. *)
Theorem undecodable_search_path_passed_on (P : Platform) (env : gmap string string)
    (loc a : string) (argv : list string) (ws : list wstring) :
  env !! "ANDROID_ARGUMENT" = Some a ->
  library_loads P (env !! "EXEPATH") ->
  decodes P (decoding_locale P loc) argv ws ->
  decode_locale P loc (paths (unpack_root a env)) = None ->
  exists before after s',
    main P argv (initial_state env loc)
    = Done (py_main P before (length argv) (marshaled ws)) s' /\
    st_trace s' = before ++ EvMain (length argv) (marshaled ws) :: after /\
    set_path_args (st_trace s') = [None] /\
    length (statements (st_trace s')) = 6%nat.
Proof.
  intros Harg Hload Hdec Hnull.
  exists (script_calls P loc (unpack_root a env) ++ marshal_calls argv), (teardown_calls ws).
  eexists. split; [now apply (main_ok P env loc a Harg argv ws)|].
  cbn [st_trace].
  assert (Hlate : Forall (fun e => is_script_call e = false)
                    (marshal_calls argv
                     ++ EvMain (length argv) (marshaled ws) :: teardown_calls ws)).
  { apply Forall_app. split; [apply marshal_calls_late|].
    constructor; [reflexivity | apply teardown_calls_late]. }
  split; [now rewrite <- app_assoc|]. split.
  - cbn [script_calls app set_path_args]. now rewrite Hnull, set_path_args_late.
  - cbn [script_calls app statements]. now rewrite statements_late.
Qed.

Lemma undecodable_search_path_passed_on_witness :
  exists before after s',
    main Sample.device_short_decoder Sample.argv Sample.state
    = Done (py_main Sample.device_short_decoder before (length Sample.argv)
              (marshaled Sample.wargv)) s' /\
    st_trace s' = before ++ EvMain (length Sample.argv) (marshaled Sample.wargv) :: after /\
    set_path_args (st_trace s') = [None] /\
    length (statements (st_trace s')) = 6%nat.
Proof.
  apply (undecodable_search_path_passed_on Sample.device_short_decoder Sample.env "C"
           "/data/app-root" Sample.argv Sample.wargv).
  - reflexivity.
  - split; [reflexivity|]. repeat constructor.
  - repeat constructor.
  - reflexivity.
Defined.

(** X11.  For unpack root [U], what is decoded into the search path is
    [U/_python_bundle/stdlib.zip:U/_python_bundle/modules] exactly when
    [U] has at most 102 characters; the prefix statement is whole
    exactly when [U] has at most 240, the bundle statement at most 207,
    the library statement at most 208. *)
Theorem buffers_intact_up_to (P : Platform) (env : gmap string string)
    (loc a U : string) (argv : list string) :
  env !! "ANDROID_ARGUMENT" = Some a ->
  library_loads P (env !! "EXEPATH") ->
  unpack_root a env = U ->
  (decode_args (st_trace (final_state (main P argv (initial_state env loc)))) !! 0%nat
   = Some (paths_fmt (bundle_dir_fmt U))
   <-> (String.length U <= 102)%nat) /\
  (statements (st_trace (final_state (main P argv (initial_state env loc)))) !! 2%nat
   = Some (add_prefix_fmt U)
   <-> (String.length U <= 240)%nat) /\
  (statements (st_trace (final_state (main P argv (initial_state env loc)))) !! 3%nat
   = Some (add_site_packages_dir_fmt (bundle_dir_fmt U))
   <-> (String.length U <= 207)%nat) /\
  (statements (st_trace (final_state (main P argv (initial_state env loc)))) !! 4%nat
   = Some (add_lib_path_fmt U)
   <-> (String.length U <= 208)%nat).
Proof.
  intros Harg Hload <-.
  destruct (main_trace_after_load P env loc a argv Harg Hload) as (rest & -> & _).
  cbn [script_calls app statements decode_args lookup list_lookup].
  rewrite <- paths_intact_iff, <- add_prefix_intact_iff,
    <- add_site_packages_dir_intact_iff, <- add_lib_path_intact_iff.
  repeat split; congruence.
Qed.

Lemma buffers_intact_up_to_witness :
  (decode_args (st_trace (final_state
     (main Sample.device Sample.argv (initial_state Sample.deep_env "C")))) !! 0%nat
   = Some (paths_fmt (bundle_dir_fmt Sample.deep_root))
   <-> (String.length Sample.deep_root <= 102)%nat) /\
  (statements (st_trace (final_state
     (main Sample.device Sample.argv (initial_state Sample.deep_env "C")))) !! 2%nat
   = Some (add_prefix_fmt Sample.deep_root)
   <-> (String.length Sample.deep_root <= 240)%nat) /\
  (statements (st_trace (final_state
     (main Sample.device Sample.argv (initial_state Sample.deep_env "C")))) !! 3%nat
   = Some (add_site_packages_dir_fmt (bundle_dir_fmt Sample.deep_root))
   <-> (String.length Sample.deep_root <= 207)%nat) /\
  (statements (st_trace (final_state
     (main Sample.device Sample.argv (initial_state Sample.deep_env "C")))) !! 4%nat
   = Some (add_lib_path_fmt Sample.deep_root)
   <-> (String.length Sample.deep_root <= 208)%nat).
Proof.
  apply (buffers_intact_up_to Sample.device Sample.deep_env "C" Sample.deep_root
           Sample.deep_root Sample.argv).
  - reflexivity.
  - split; [reflexivity|]. repeat constructor.
  - reflexivity.
Defined.

(** X12.  For an unpack root [U] of 255 characters or more, the bundle
    directory and the search path are both just the first 255
    characters of [U]: neither the archive nor the modules directory is
    named in what [Py_SetPath] receives. *)
Theorem long_root_is_the_search_path (P : Platform) (env : gmap string string)
    (loc a U : string) (argv : list string) :
  env !! "ANDROID_ARGUMENT" = Some a ->
  library_loads P (env !! "EXEPATH") ->
  unpack_root a env = U ->
  (255 <= String.length U)%nat ->
  decode_args (st_trace (final_state (main P argv (initial_state env loc)))) !! 0%nat
  = Some (truncate 255 U) /\
  set_path_args (st_trace (final_state (main P argv (initial_state env loc))))
  = [decode_locale P loc (truncate 255 U)].
Proof.
  intros Harg Hload <- Hlen.
  destruct (main_trace_after_load P env loc a argv Harg Hload) as (rest & -> & Hrest).
  cbn [script_calls app set_path_args decode_args lookup list_lookup].
  rewrite (paths_of_long_root _ Hlen), (set_path_args_late rest Hrest). split; reflexivity.
Qed.

Lemma long_root_is_the_search_path_witness :
  decode_args (st_trace (final_state
    (main Sample.device Sample.argv (initial_state Sample.very_deep_env "C")))) !! 0%nat
  = Some (truncate 255 Sample.very_deep_root) /\
  set_path_args (st_trace (final_state
    (main Sample.device Sample.argv (initial_state Sample.very_deep_env "C"))))
  = [decode_locale Sample.device "C" (truncate 255 Sample.very_deep_root)].
Proof.
  apply (long_root_is_the_search_path Sample.device Sample.very_deep_env "C"
           Sample.very_deep_root Sample.very_deep_root Sample.argv).
  - reflexivity.
  - split; [reflexivity|]. repeat constructor.
  - reflexivity.
  - vm_compute. lia.
Defined.

(** ** The decode diagnostic *)

(** X13.  The number can be read back from what [%i] prints, so the
    line written for a rejected argument determines its ordinal: from
    the same state, two ordinals give the same output only if they are
    the same. *)
Theorem decode_diagnostic_determines_ordinal (i j : Z) (s : State) :
  fprintf_stderr
    ("Fatal Python error: unable to decode the command line argument #%i" +:+ nl)
    [AInt i] s
  = fprintf_stderr
      ("Fatal Python error: unable to decode the command line argument #%i" +:+ nl)
      [AInt j] s ->
  i = j.
Proof.
  unfold fprintf_stderr. rewrite !format_decode_diagnostic.
  intros Heq. injection Heq as Heq.
  apply append_inj_l in Heq. unfold decode_diagnostic in Heq.
  apply append_inj_l in Heq. apply append_inj_r in Heq. now apply decimal_inj.
Qed.

Lemma decode_diagnostic_determines_ordinal_witness : 2 = 2.
Proof.
  apply (decode_diagnostic_determines_ordinal 2 2 Sample.state). reflexivity.
Defined.

(** ** The locale *)

(** X14.  A locale subsystem that refuses the native locale stops
    nothing: the arguments are decoded under the locale that was in
    force, [Py_Main] is called with them, nothing is written to
    standard error, and the locale at the end is the one at the
    start. *)
Theorem refused_native_locale_ignored (P : Platform) (env : gmap string string)
    (loc a : string) (argv : list string) (ws : list wstring) :
  env !! "ANDROID_ARGUMENT" = Some a ->
  library_loads P (env !! "EXEPATH") ->
  native_locale P = None ->
  decodes P loc argv ws ->
  exists before after s',
    main P argv (initial_state env loc)
    = Done (py_main P before (length argv) (marshaled ws)) s' /\
    st_trace s' = before ++ EvMain (length argv) (marshaled ws) :: after /\
    st_locale s' = loc /\
    st_stderr s' = EmptyString.
Proof.
  intros Harg Hload Hnone Hdec.
  assert (Hloc : decoding_locale P loc = loc).
  { unfold decoding_locale, new_locale. rewrite Hnone. now case_bool_decide. }
  exists (script_calls P loc (unpack_root a env) ++ marshal_calls argv), (teardown_calls ws).
  eexists. split.
  - apply (main_ok P env loc a Harg argv ws Hload). now rewrite Hloc.
  - cbn [st_trace st_locale st_stderr].
    split; [now rewrite <- app_assoc|]. split; [|reflexivity].
    unfold restored_locale, new_locale. rewrite Hloc, Hnone.
    now case_bool_decide.
Qed.

Lemma refused_native_locale_ignored_witness :
  exists before after s',
    main Sample.device_no_native Sample.argv Sample.state
    = Done (py_main Sample.device_no_native before (length Sample.argv)
              (marshaled Sample.wargv)) s' /\
    st_trace s' = before ++ EvMain (length Sample.argv) (marshaled Sample.wargv) :: after /\
    st_locale s' = "C" /\
    st_stderr s' = EmptyString.
Proof.
  apply (refused_native_locale_ignored Sample.device_no_native Sample.env "C"
           "/data/app-root" Sample.argv Sample.wargv).
  - reflexivity.
  - split; [reflexivity|]. repeat constructor.
  - reflexivity.
  - repeat constructor.
Defined.
